(** * blivechat relay: avatar resolver, rooms, room manager, chat handler

    A shallow embedding of [views/chat.py].  The Python coroutines are
    written as state-passing functions over the module's globals; every
    value read from the environment (wall-clock time, the HTTP response,
    the decoded websocket message) is an explicit argument.

    Logging calls are left out; where the arguments of one can raise, their
    evaluation is kept.

    Time is an integer number of microseconds, the resolution of
    [datetime.datetime.now()].  On such values the source's float tests
    [total_seconds() < 0.2] and [total_seconds() < 3 * 60 + 3] are exactly
    [delta < 200000] and [delta < 183000000]. *)

From Stdlib Require Import ZArith List String Ascii Bool Lia.
From stdpp Require Import base option list gmap strings.

Set Warnings "-register-all".

Local Open Scope string_scope.
Local Open Scope list_scope.
Local Open Scope Z_scope.

(** ** Python values, exceptions and containers *)

Module Py.

(** The exception classes that occur in the modelled code.  A class stands
    for itself and its subclasses, as an [except] clause matches them. *)
Inductive exn : Type :=
| ClientConnectionError   (* aiohttp.ClientConnectionError *)
| ContentTypeError        (* aiohttp.ContentTypeError, from r.json() *)
| TimeoutError            (* asyncio.TimeoutError *)
| JSONDecodeError
| KeyError
| TypeError
| AttributeError
| ValueError
| OverflowError
| RuntimeError
| QueueFull.

Definition exn_eqb (a b : exn) : bool :=
  match a, b with
  | ClientConnectionError, ClientConnectionError
  | ContentTypeError, ContentTypeError
  | TimeoutError, TimeoutError
  | JSONDecodeError, JSONDecodeError
  | KeyError, KeyError
  | TypeError, TypeError
  | AttributeError, AttributeError
  | ValueError, ValueError
  | OverflowError, OverflowError
  | RuntimeError, RuntimeError
  | QueueFull, QueueFull => true
  | _, _ => false
  end.

(** A computation either returns a value or raises. *)
Inductive result (A : Type) : Type :=
| Ok (a : A)
| Raise (e : exn).
Arguments Ok {A} a.
Arguments Raise {A} e.

#[export] Instance result_ret : MRet result := fun _ a => Ok a.
#[export] Instance result_bind : MBind result := fun _ _ f r =>
  match r with Ok a => f a | Raise e => Raise e end.

(** A [float]: the finite ones are [m * 2^e]. *)
Inductive pyfloat : Type :=
| Finite (m e : Z)
| Infinity (negative : bool)
| NaN.

(** Values produced by [json.loads] / consumed by [json.dumps].  Objects
    are the decoded dicts, as association lists with one binding per key. *)
Inductive json : Type :=
| JNull
| JBool (b : bool)
| JInt (z : Z)
| JFloat (f : pyfloat)
| JStr (s : string)
| JArr (l : list json)
| JObj (o : list (string * json)).

Fixpoint assoc (k : string) (o : list (string * json)) : option json :=
  match o with
  | [] => None
  | (k', v) :: o' => if String.eqb k k' then Some v else assoc k o'
  end.

(** [v[key]] for a string key: a dict raises KeyError when the key is
    missing, every other JSON value raises TypeError. *)
Definition getitem (v : json) (key : string) : result json :=
  match v with
  | JObj o => match assoc key o with Some x => Ok x | None => Raise KeyError end
  | _ => Raise TypeError
  end.

(** [v == n] for an integer [n]; [bool] is a subclass of [int]. *)
Definition eq_int (v : json) (n : Z) : bool :=
  match v with
  | JInt z => z =? n
  | JBool b => (if b then 1 else 0) =? n
  | JFloat (Finite m e) => if 0 <=? e then m * 2 ^ e =? n else m =? n * 2 ^ (- e)
  | _ => false
  end.

(** [int(v)].  What [int] makes of a [str] depends on the interpreter
    (which characters count as digits and as white space, how long a
    numeral may be); [int_str] is that conversion, a parameter of the
    model.  The other cases are the same everywhere. *)
Definition int (int_str : string -> result Z) (v : json) : result Z :=
  match v with
  | JInt z => Ok z
  | JBool b => Ok (if b then 1 else 0)
  | JFloat (Finite m e) => Ok (if 0 <=? e then m * 2 ^ e else Z.quot m (2 ^ (- e)))
  | JFloat (Infinity _) => Raise OverflowError
  | JFloat NaN => Raise ValueError
  | JStr s => int_str s
  | JNull | JArr _ | JObj _ => Raise TypeError
  end.

(** [l.remove(x)]: drops the first element equal to [x]; [None] stands for
    the ValueError raised when there is none. *)
Fixpoint list_remove (x : nat) (l : list nat) : option (list nat) :=
  match l with
  | [] => None
  | y :: l' =>
      if (x =? y)%nat then Some l'
      else option_map (cons y) (list_remove x l')
  end.

(** [{**o, k: v}] and [o[k] = v] on a decoded object. *)
Fixpoint obj_set (k : string) (v : json) (o : list (string * json))
  : list (string * json) :=
  match o with
  | [] => [(k, v)]
  | (k', v') :: o' =>
      if String.eqb k k' then (k, v) :: o' else (k', v') :: obj_set k v o'
  end.

(** [s.endswith(suffix)] *)
Definition endswith (s suffix : string) : bool :=
  let n := String.length s in
  let m := String.length suffix in
  (m <=? n)%nat && String.eqb (substring (n - m) m s) suffix.

(** *** Insertion-ordered dict with integer keys

    The bindings are kept in insertion order, which is the order a dict
    is iterated in. *)
Section Dict.
Context {V : Type}.

Definition dict : Type := list (Z * V).

Fixpoint dict_get (k : Z) (d : dict) : option V :=
  match d with
  | [] => None
  | (k', v) :: d' => if k =? k' then Some v else dict_get k d'
  end.

(** [k in d] *)
Definition dict_contains (k : Z) (d : dict) : bool :=
  match dict_get k d with Some _ => true | None => false end.

(** [d[k] = v]: an existing key keeps its position, a new one goes last. *)
Fixpoint dict_set (k : Z) (v : V) (d : dict) : dict :=
  match d with
  | [] => [(k, v)]
  | (k', v') :: d' =>
      if k =? k' then (k, v) :: d' else (k', v') :: dict_set k v d'
  end.

(** [del d[k]] *)
Fixpoint dict_del (k : Z) (d : dict) : result dict :=
  match d with
  | [] => Raise KeyError
  | (k', v') :: d' =>
      if k =? k' then Ok d'
      else d'' ← dict_del k d'; Ok ((k', v') :: d'')
  end.

Definition dict_len (d : dict) : Z := Z.of_nat (length d).

(** A key iterator remembers the size the dict had when the iterator was
    made ([di_used]) and the index of the next binding ([di_pos]).
    [next] first compares the sizes and raises RuntimeError ("dictionary
    changed size during iteration") when they differ.  [di_pos] counts
    live bindings; it is read only while no binding has been deleted
    since the iterator was made. *)
Record dictiter : Type := { di_used : nat; di_pos : nat }.

Definition dict_iter (d : dict) : dictiter :=
  {| di_used := length d; di_pos := 0 |}.

Inductive iter_step : Type :=
| Yield (k : Z) (it : dictiter)
| StopIteration
| IterRaise (e : exn).

Definition dictiter_next (it : dictiter) (d : dict) : iter_step :=
  if negb (length d =? di_used it)%nat then IterRaise RuntimeError
  else match nth_error d (di_pos it) with
       | Some (k, _) => Yield k {| di_used := di_used it; di_pos := S (di_pos it) |}
       | None => StopIteration
       end.
End Dict.
Arguments dict V : clear implicits.

End Py.
Export Py.

(** ** The avatar resolver ([get_avatar_url] and its background worker) *)

Module Avatar.

Definition DEFAULT_AVATAR_URL : string :=
  "https://static.hdslb.com/images/member/noface.gif".

(** The module-level globals.  [_uids_to_fetch_avatar] holds the content
    of [asyncio.Queue(15)], oldest first. *)
Record globals : Type := {
  _avatar_url_cache : dict string;
  _last_fetch_avatar_time : Z;
  _last_avatar_failed_time : option Z;
  _uids_to_fetch_avatar : list Z
}.

Definition set_cache (c : dict string) (g : globals) : globals :=
  {| _avatar_url_cache := c;
     _last_fetch_avatar_time := _last_fetch_avatar_time g;
     _last_avatar_failed_time := _last_avatar_failed_time g;
     _uids_to_fetch_avatar := _uids_to_fetch_avatar g |}.

Definition set_last_fetch (t : Z) (g : globals) : globals :=
  {| _avatar_url_cache := _avatar_url_cache g;
     _last_fetch_avatar_time := t;
     _last_avatar_failed_time := _last_avatar_failed_time g;
     _uids_to_fetch_avatar := _uids_to_fetch_avatar g |}.

Definition set_failed (t : option Z) (g : globals) : globals :=
  {| _avatar_url_cache := _avatar_url_cache g;
     _last_fetch_avatar_time := _last_fetch_avatar_time g;
     _last_avatar_failed_time := t;
     _uids_to_fetch_avatar := _uids_to_fetch_avatar g |}.

Definition set_queue (q : list Z) (g : globals) : globals :=
  {| _avatar_url_cache := _avatar_url_cache g;
     _last_fetch_avatar_time := _last_fetch_avatar_time g;
     _last_avatar_failed_time := _last_avatar_failed_time g;
     _uids_to_fetch_avatar := q |}.

(** [asyncio.Queue(15)] *)
Definition maxsize : Z := 15.

Definition put_nowait (x : Z) (q : list Z) : result (list Z) :=
  if maxsize <=? Z.of_nat (length q) then Raise QueueFull else Ok (q ++ [x]).

(** What the profile service did with one request: [session.get] (or
    reading the body) raised, or a response with a status line arrived,
    whose [r.json()] yields [body]. *)
Inductive http_outcome : Type :=
| GetRaised (e : exn)
| Responded (status : Z) (reason : string) (body : result json).

(** [except aiohttp.ClientConnectionError] *)
Definition caught (e : exn) : bool := exn_eqb e ClientConnectionError.

(** [for _, key in zip(range(100), _avatar_url_cache): del _avatar_url_cache[key]]

    [zip] asks [range] first and the dict iterator second; the loop ends
    when either is exhausted.  [n] is what is left of [range(100)]. *)
Fixpoint evict (n : nat) (it : dictiter) (d : dict string)
  : dict string * result unit :=
  match n with
  | O => (d, Ok tt)
  | S n' =>
      match dictiter_next it d with
      | IterRaise e => (d, Raise e)
      | StopIteration => (d, Ok tt)
      | Yield key it' =>
          match dict_del key d with
          | Raise e => (d, Raise e)
          | Ok d' => evict n' it' d'
          end
      end
  end.

(** The coroutine up to its only suspension point: either it returns
    without touching the network, or it is about to await the request it
    sends for [user_id], having read the clock as [cur_time]. *)
Inductive begun : Type :=
| Returned (url : string)
| Awaiting (cur_time : Z).

Definition get_avatar_url_begin (g : globals) (now : Z) (user_id : Z)
  : globals * begun :=
  match dict_get user_id (_avatar_url_cache g) with
  | Some url => (g, Returned url)
  | None =>
      let cur_time := now in
      if cur_time - _last_fetch_avatar_time g <? 200000 then
        let g :=
          match put_nowait user_id (_uids_to_fetch_avatar g) with
          | Ok q => set_queue q g
          | Raise _ => g                     (* except asyncio.QueueFull: pass *)
          end in
        (g, Returned DEFAULT_AVATAR_URL)
      else
        let go (g : globals) := (set_last_fetch cur_time g, Awaiting cur_time) in
        match _last_avatar_failed_time g with
        | Some failed =>
            if cur_time - failed <? 183000000 then (g, Returned DEFAULT_AVATAR_URL)
            else go (set_failed None g)
        | None => go g
        end
  end.

(** The rest of the coroutine, run when the request completes.  [g] is
    the state of the globals at that moment. *)
Definition get_avatar_url_resume (g : globals) (cur_time : Z) (user_id : Z)
    (r : http_outcome) : globals * result string :=
  match r with
  | GetRaised e => if caught e then (g, Ok DEFAULT_AVATAR_URL) else (g, Raise e)
  | Responded status reason body =>
      if negb (status =? 200) then
        (set_failed (Some cur_time) g, Ok DEFAULT_AVATAR_URL)
      else
        match body with
        | Raise e => if caught e then (g, Ok DEFAULT_AVATAR_URL) else (g, Raise e)
        | Ok data =>
            match (d ← getitem data "data"; getitem d "face") with
            | Raise e => (g, Raise e)
            | Ok (JStr url) =>
                let url := if endswith url "noface.gif" then url
                           else url +:+ "@48w_48h" in
                let cache := dict_set user_id url (_avatar_url_cache g) in
                if 50000 <? dict_len cache then
                  match evict 100 (dict_iter cache) cache with
                  | (cache', Ok _) => (set_cache cache' g, Ok url)
                  | (cache', Raise e) => (set_cache cache' g, Raise e)
                  end
                else (set_cache cache g, Ok url)
            | Ok _ => (g, Raise AttributeError)   (* url.endswith on a non-str *)
            end
        end
  end.

(** One call run to completion with nothing interleaved at the await.
    [fetched] lists the user ids a request was sent for. *)
Record call : Type := {
  after : globals;
  fetched : list Z;
  returned : result string
}.

Definition get_avatar_url (g : globals) (now : Z) (user_id : Z)
    (r : http_outcome) : call :=
  match get_avatar_url_begin g now user_id with
  | (g1, Returned url) => {| after := g1; fetched := []; returned := Ok url |}
  | (g1, Awaiting cur_time) =>
      let '(g2, res) := get_avatar_url_resume g1 cur_time user_id r in
      {| after := g2; fetched := [user_id]; returned := res |}
  end.

(** [asyncio.sleep(delay)]: the time the caller stays suspended; a delay
    that is not positive yields to the event loop once and returns. *)
Definition sleep (delay : Z) : Z := Z.max 0 delay.

(** One turn of [while True] in [_fetch_avatar_loop]. *)
Inductive worker_step : Type :=
| Blocked                                  (* the queue is empty: get() waits *)
| Skipped (user_id : Z)                    (* continue *)
| Spawned (user_id : Z) (slept : Z).       (* ensure_future(get_avatar_url(user_id)) *)

Definition _fetch_avatar_loop (g : globals) (now : Z) : globals * worker_step :=
  match _uids_to_fetch_avatar g with
  | [] => (g, Blocked)
  | user_id :: q =>
      let g := set_queue q g in
      if dict_contains user_id (_avatar_url_cache g) then (g, Skipped user_id)
      else (g, Spawned user_id (sleep (400000 - (now - _last_fetch_avatar_time g))))
  end.

(** A sequence of calls, each run to completion before the next. *)
Record request : Type := {
  at_time : Z;
  for_user : Z;
  network : http_outcome
}.

Fixpoint run (g : globals) (rs : list request) : list call :=
  match rs with
  | [] => []
  | r :: rs' =>
      let c := get_avatar_url g (at_time r) (for_user r) (network r) in
      c :: run (after c) rs'
  end.

(** A well-formed reply of the profile service carrying [url]. *)
Definition ok_face (url : string) : http_outcome :=
  Responded 200 "OK"
    (Ok (JObj [("code", JInt 0); ("data", JObj [("face", JStr url)])])).

(** What a call can answer without the network. *)
Definition offline (cache : dict string) (user_id : Z) : string :=
  match dict_get user_id cache with
  | Some url => url
  | None => DEFAULT_AVATAR_URL
  end.

(** What [put_nowait] under [except QueueFull: pass] leaves in the queue. *)
Definition offered (user_id : Z) (q : list Z) : list Z :=
  if Z.of_nat (length q) <? 15 then q ++ [user_id] else q.

(** What [get_avatar_url] makes of the [face] it is sent. *)
Definition sized (url : string) : string :=
  if endswith url "noface.gif" then url else url +:+ "@48w_48h".

(** The [face] a reply carries, as [get_avatar_url] reads it. *)
Definition face_of (data : json) : result json :=
  d ← getitem data "data"; getitem d "face".

(** *** The resolver with requests in flight

    Calls suspend at their request and resume in any order when the
    replies arrive; the worker takes its turns in between.  [pending]
    holds the suspended calls, [sent] logs the time and user of every
    request sent, oldest first.  A lookup the worker schedules is a
    [Lookup] like any other. *)
Record inflight : Type := { waiting_user : Z; started : Z }.

Inductive event : Type :=
| Lookup (now user_id : Z)
| Reply (k : nat) (r : http_outcome)        (* the k-th suspended call resumes *)
| WorkerTurn (now : Z).

Record world : Type := {
  state : globals;
  pending : list inflight;
  sent : list (Z * Z)
}.

Definition step (w : world) (e : event) : world :=
  match e with
  | Lookup now user_id =>
      match get_avatar_url_begin (state w) now user_id with
      | (g, Returned _) => {| state := g; pending := pending w; sent := sent w |}
      | (g, Awaiting cur_time) =>
          {| state := g;
             pending := pending w ++ [{| waiting_user := user_id; started := cur_time |}];
             sent := sent w ++ [(cur_time, user_id)] |}
      end
  | Reply k r =>
      match pending w !! k with
      | Some p =>
          {| state := fst (get_avatar_url_resume (state w) (started p) (waiting_user p) r);
             pending := delete k (pending w);
             sent := sent w |}
      | None => w
      end
  | WorkerTurn now =>
      {| state := fst (_fetch_avatar_loop (state w) now);
         pending := pending w; sent := sent w |}
  end.

Definition play (w : world) (es : list event) : world := fold_left step es w.

(** Successive times at least 200 ms apart, the first one that far from
    [last]. *)
Fixpoint spaced (last : Z) (ts : list Z) : Prop :=
  match ts with
  | [] => True
  | t :: ts' => 200000 <= t - last /\ spaced t ts'
  end.

(** The last of the times, [last] when there is none. *)
Definition latest (last : Z) (ts : list Z) : Z :=
  fold_left (fun _ t => t) ts last.

Definition world0 (g : globals) : world :=
  {| state := g; pending := []; sent := [] |}.

(** The log of requests is spaced and ends at [_last_fetch_avatar_time]. *)
Definition spacing (last0 : Z) (w : world) : Prop :=
  spaced last0 (map fst (sent w))
  /\ latest last0 (map fst (sent w)) = _last_fetch_avatar_time (state w).

(** [now] is less than 183 s after [t0] and after the start of every
    request in [ps]. *)
Definition within (t0 : Z) (ps : list inflight) (now : Z) : Prop :=
  now - t0 < 183000000
  /\ forall p : inflight, In p ps -> now - started p < 183000000.

(** An event that is not a lookup, or a lookup made [within] that time. *)
Definition quiet (t0 : Z) (ps : list inflight) (e : event) : Prop :=
  match e with
  | Lookup now _ => within t0 ps now
  | _ => True
  end.

(** The failure time held is [t0] or the start of one of [ps]; the
    requests in flight are among [ps]; and nothing has been sent. *)
Definition holding (t0 : Z) (ps : list inflight) (w : world) : Prop :=
  (exists tf : Z,
      _last_avatar_failed_time (state w) = Some tf
      /\ (tf = t0 \/ exists p : inflight, In p ps /\ started p = tf))
  /\ (forall p : inflight, In p (pending w) -> In p ps)
  /\ sent w = [].

(** The worker taking one turn at each of the given times. *)
Fixpoint turns (g : globals) (nows : list Z) : list worker_step * globals :=
  match nows with
  | [] => ([], g)
  | now :: nows' =>
      let '(g1, s) := _fetch_avatar_loop g now in
      let '(ss, g2) := turns g1 nows' in
      (s :: ss, g2)
  end.

(** The user id a turn took off the queue. *)
Definition taken (s : worker_step) : option Z :=
  match s with
  | Blocked => None
  | Skipped user_id | Spawned user_id _ => Some user_id
  end.

End Avatar.

(** ** Rooms and their subscribers *)

Module Rooms.

Inductive Command : Type := JOIN_ROOM | ADD_TEXT | ADD_GIFT | ADD_MEMBER.

Definition value (c : Command) : Z :=
  match c with JOIN_ROOM => 0 | ADD_TEXT => 1 | ADD_GIFT => 2 | ADD_MEMBER => 3 end.

(** A subscriber is a [ChatHandler] object; [handle] is its identity. *)
Definition handle : Type := nat.

(** The text [json.dumps] returns for a value. *)
Inductive encoded : Type := json_dumps (v : json).

(** What a room does to the outside: calls on its upstream client and
    writes to subscriber transports, in the order they are issued.  In
    [Stop; Close] the close is the one the stop's done-callback schedules. *)
Inductive effect : Type :=
| Start (room_id : Z)
| Stop (room_id : Z)
| Close (room_id : Z)
| Write (client : handle) (body : encoded).

(** [Room(blivedm.BLiveClient)].  [room_id], [room_owner_uid] and
    [is_running] are the client's attributes the code reads. *)
Record Room : Type := {
  room_id : Z;
  room_owner_uid : option Z;
  is_running : bool;
  clients : list handle
}.

Definition set_clients (cs : list handle) (r : Room) : Room :=
  {| room_id := room_id r; room_owner_uid := room_owner_uid r;
     is_running := is_running r; clients := cs |}.

(** Modelled from the spec: the constructor of [blivedm.BLiveClient] (the
    upstream protocol client is not under src/): a new client is not
    running and has not learned the room owner yet. *)
Definition Room_init (room_id : Z) : Room :=
  {| room_id := room_id; room_owner_uid := None;
     is_running := false; clients := [] |}.

(** Modelled from the spec: [blivedm.BLiveClient.start] (not under src/):
    starts the upstream client for this room id, which is then running. *)
Definition start (self : Room) : Room * list effect :=
  ({| room_id := room_id self; room_owner_uid := room_owner_uid self;
      is_running := true; clients := clients self |},
   [Start (room_id self)]).

Definition stop_and_close (self : Room) : list effect :=
  if is_running self then [Stop (room_id self); Close (room_id self)]
  else [Close (room_id self)].

Definition send_message (self : Room) (cmd : Command) (data : json)
  : list effect :=
  let body := json_dumps (JObj [("cmd", JInt (value cmd)); ("data", data)]) in
  map (fun client => Write client body) (clients self).

(** The fields of [blivedm.DanmakuMessage] the room reads; flags travel
    as integers and are tested for truth. *)
Record DanmakuMessage : Type := {
  uid : Z;
  admin : Z;
  privilege_type : Z;
  timestamp : Z;
  uname : string;
  msg : string;
  msg_type : Z;
  user_level : Z;
  urank : Z;
  mobile_verify : Z;
  medal_room_id : Z;          (* danmaku.room_id *)
  medal_level : Z
}.

(** [bool(n)] *)
Definition truthy (n : Z) : bool := negb (n =? 0).

Definition author_type (self : Room) (danmaku : DanmakuMessage) : Z :=
  if match room_owner_uid self with
     | Some owner => uid danmaku =? owner
     | None => false
     end then 3
  else if truthy (admin danmaku) then 2
  else if negb (privilege_type danmaku =? 0) then 1
  else 0.

Definition text_payload (self : Room) (danmaku : DanmakuMessage)
    (avatar_url : string) : json :=
  JObj [ ("avatarUrl", JStr avatar_url);
         ("timestamp", JInt (timestamp danmaku));
         ("authorName", JStr (uname danmaku));
         ("authorType", JInt (author_type self danmaku));
         ("content", JStr (msg danmaku));
         ("privilegeType", JInt (privilege_type danmaku));
         ("isGiftDanmaku", JBool (truthy (msg_type danmaku)));
         ("authorLevel", JInt (user_level danmaku));
         ("isNewbie", JBool (urank danmaku <? 10000));
         ("isMobileVerified", JBool (truthy (mobile_verify danmaku)));
         ("medalLevel", JInt (if negb (medal_room_id danmaku =? room_id self)
                              then 0 else medal_level danmaku)) ].

(** [avatar] is what [await get_avatar_url(danmaku.uid)] gave. *)
Definition __on_receive_danmaku (self : Room) (danmaku : DanmakuMessage)
    (avatar : result string) : result (list effect) :=
  avatar_url ← avatar;
  Ok (send_message self ADD_TEXT (text_payload self danmaku avatar_url)).

Record GiftMessage : Type := {
  coin_type : string;
  face : string;
  gift_timestamp : Z;
  gift_uname : string;
  gift_name : string;
  num : Z;
  total_coin : Z
}.

Definition _on_receive_gift (self : Room) (gift : GiftMessage) : list effect :=
  if negb (String.eqb (coin_type gift) "gold") then []
  else send_message self ADD_GIFT
         (JObj [ ("avatarUrl", JStr (face gift));
                 ("timestamp", JInt (gift_timestamp gift));
                 ("authorName", JStr (gift_uname gift));
                 ("giftName", JStr (gift_name gift));
                 ("giftNum", JInt (num gift));
                 ("totalCoin", JInt (total_coin gift)) ]).



(** [RoomManager.__send_test_message]; [time] is [time.time()]. *)
Definition __send_test_message (room : Room) (time : pyfloat) : list effect :=
  let base_data :=
    [ ("avatarUrl", JStr "https://i0.hdslb.com/bfs/face/29b6be8aa611e70a3d3ac219cdaf5e72b604f2de.jpg@48w_48h");
      ("timestamp", JFloat time);
      ("authorName", JStr "xfgryujk") ] in
  let text_data :=
    base_data ++
    [ ("authorType", JInt 0);
      ("content", JStr "我能吞下玻璃而不伤身体");
      ("privilegeType", JInt 0);
      ("isGiftDanmaku", JBool false);
      ("authorLevel", JInt 20);
      ("isNewbie", JBool false);
      ("isMobileVerified", JBool true) ] in
  let vip_data := base_data in
  let gift_data :=
    base_data ++
    [ ("giftName", JStr "礼花"); ("giftNum", JInt 1); ("totalCoin", JInt 28000) ] in
  let fx1 := send_message room ADD_TEXT (JObj text_data) in
  let text_data := obj_set "authorName" (JStr "主播") text_data in
  let text_data := obj_set "authorType" (JInt 3) text_data in
  let text_data :=
    obj_set "content" (JStr "I can eat glass, it doesn't hurt me.") text_data in
  let fx2 := send_message room ADD_TEXT (JObj text_data) in
  let fx3 := send_message room ADD_MEMBER (JObj vip_data) in
  let fx4 := send_message room ADD_GIFT (JObj gift_data) in
  let gift_data := obj_set "giftName" (JStr "节奏风暴") gift_data in
  let gift_data := obj_set "totalCoin" (JInt 100000) gift_data in
  let fx5 := send_message room ADD_GIFT (JObj gift_data) in
  let gift_data := obj_set "giftName" (JStr "摩天大楼") gift_data in
  let gift_data := obj_set "totalCoin" (JInt 450000) gift_data in
  let fx6 := send_message room ADD_GIFT (JObj gift_data) in
  let gift_data := obj_set "giftName" (JStr "小电视飞船") gift_data in
  let gift_data := obj_set "totalCoin" (JInt 1245000) gift_data in
  let fx7 := send_message room ADD_GIFT (JObj gift_data) in
  fx1 ++ fx2 ++ fx3 ++ fx4 ++ fx5 ++ fx6 ++ fx7.

(** *** RoomManager: [_rooms] is the directory, keyed by room id.

    [debug] is [client.application.settings['debug']]. *)
Definition add_client (debug : bool) (time : pyfloat) (_rooms : gmap Z Room)
    (room_id : Z) (client : handle) : gmap Z Room * list effect :=
  let '(room, fx) :=
    match _rooms !! room_id with
    | Some room => (room, [])
    | None => start (Room_init room_id)
    end in
  let room := set_clients (clients room ++ [client]) room in
  (<[room_id := room]> _rooms,
   fx ++ (if debug then __send_test_message room time else [])).

Definition del_client (_rooms : gmap Z Room) (room_id : Z) (client : handle)
  : gmap Z Room * list effect * result unit :=
  match _rooms !! room_id with
  | None => (_rooms, [], Ok tt)
  | Some room =>
      match list_remove client (clients room) with
      | None => (_rooms, [], Raise ValueError)
      | Some cs =>
          let room := set_clients cs room in
          match cs with
          | [] => (delete room_id _rooms, stop_and_close room, Ok tt)
          | _ :: _ => (<[room_id := room]> _rooms, [], Ok tt)
          end
      end
  end.

(** The manager driven by a sequence of joins and leaves. *)
Inductive op : Type :=
| Join (debug : bool) (time : pyfloat) (room_id : Z) (client : handle)
| Leave (room_id : Z) (client : handle).

Definition apply (_rooms : gmap Z Room) (o : op) : gmap Z Room * list effect :=
  match o with
  | Join debug time room_id client => add_client debug time _rooms room_id client
  | Leave room_id client => fst (del_client _rooms room_id client)
  end.

(** The directory and everything done so far, after [ops]. *)
Fixpoint drive (_rooms : gmap Z Room) (done : list effect) (ops : list op)
  : gmap Z Room * list effect :=
  match ops with
  | [] => (_rooms, done)
  | o :: ops' =>
      let '(rooms', fx) := apply _rooms o in
      drive rooms' (done ++ fx) ops'
  end.

Definition subscribers (_rooms : gmap Z Room) (room_id : Z) : list handle :=
  match _rooms !! room_id with
  | Some room => clients room
  | None => []
  end.

Fixpoint count (p : effect -> bool) (fx : list effect) : nat :=
  match fx with
  | [] => 0%nat
  | e :: fx' => ((if p e then 1 else 0) + count p fx')%nat
  end.

Definition is_start (r : Z) (e : effect) : bool :=
  match e with Start r' => r =? r' | _ => false end.
Definition is_stop (r : Z) (e : effect) : bool :=
  match e with Stop r' => r =? r' | _ => false end.
Definition is_close (r : Z) (e : effect) : bool :=
  match e with Close r' => r =? r' | _ => false end.
Definition is_write_to (c : handle) (e : effect) : bool :=
  match e with Write c' _ => (c =? c')%nat | _ => false end.
Definition is_write (e : effect) : bool :=
  match e with Write _ _ => true | _ => false end.

(** The directory agrees with what was done to the upstream clients: a
    room in it is filed under its own id, runs and has a subscriber; for
    every id the clients started are the ones closed plus the one in the
    directory, if any; and every close came with a stop. *)
Definition consistent (_rooms : gmap Z Room) (done : list effect) : Prop :=
  (forall (r : Z) (room : Room),
      _rooms !! r = Some room ->
      room_id room = r /\ is_running room = true /\ clients room <> [])
  /\ (forall r : Z,
        count (is_start r) done
        = (count (is_close r) done
           + match _rooms !! r with Some _ => 1 | None => 0 end)%nat)
  /\ (forall r : Z, count (is_stop r) done = count (is_close r) done).

End Rooms.

(** ** The per-connection websocket handler *)

Module Handler.
Import Rooms.

Record ChatHandler : Type := {
  self_handle : handle;
  room_id : option Z;                      (* None until the join *)
  debug : bool                             (* application.settings['debug'] *)
}.

Definition set_room_id (r : Z) (self : ChatHandler) : ChatHandler :=
  {| self_handle := self_handle self; room_id := Some r; debug := debug self |}.

(** The handler and the process-wide [room_manager] after a callback, what
    the callback did to the outside, and whether it raised. *)
Record handled : Type := {
  handler : ChatHandler;
  room_manager : gmap Z Room;
  effects : list effect;
  outcome : result unit
}.

Definition unchanged (self : ChatHandler) (rooms : gmap Z Room)
    (r : result unit) : handled :=
  {| handler := self; room_manager := rooms; effects := []; outcome := r |}.

Section Conversion.
(** The interpreter's [int] on a [str]. *)
Variable int_str : string -> result Z.

(** [decoded] is [json.loads(message)], [Raise JSONDecodeError] for a text
    that is not JSON; [time] is the clock [add_client] reads in debug mode. *)
Definition on_message (time : pyfloat) (self : ChatHandler)
    (rooms : gmap Z Room) (decoded : result json) : handled :=
  match room_id self with
  | Some _ => unchanged self rooms (Ok tt)
  | None =>
      match decoded with
      | Raise e => unchanged self rooms (Raise e)
      | Ok body =>
          match getitem body "cmd" with
          | Raise e => unchanged self rooms (Raise e)
          | Ok cmd =>
              if eq_int cmd (value JOIN_ROOM) then
                match (data ← getitem body "data";
                       room ← getitem data "roomId";
                       int int_str room) with
                | Raise e => unchanged self rooms (Raise e)
                | Ok r =>
                    let self := set_room_id r self in
                    let '(rooms, fx) :=
                      add_client (debug self) time rooms r (self_handle self) in
                    {| handler := self; room_manager := rooms;
                       effects := fx; outcome := Ok tt |}
                end
              else
                (* logger.warning('Unknown cmd: %s data: %s', body['cmd'], body['data']) *)
                match getitem body "data" with
                | Raise e => unchanged self rooms (Raise e)
                | Ok _ => unchanged self rooms (Ok tt)
                end
          end
      end
  end.

(** The room id a message asks to join, when it is a join request the
    handler can read: an object whose [cmd] equals JOIN_ROOM and whose
    [data.roomId] converts to an integer. *)
Definition join_request (decoded : result json) : option Z :=
  match decoded with
  | Raise _ => None
  | Ok body =>
      match getitem body "cmd" with
      | Raise _ => None
      | Ok cmd =>
          if eq_int cmd (value JOIN_ROOM) then
            match (data ← getitem body "data";
                   room ← getitem data "roomId";
                   int int_str room) with
            | Ok r => Some r
            | Raise _ => None
            end
          else None
      end
  end.


End Conversion.

Definition on_close (self : ChatHandler) (rooms : gmap Z Room) : handled :=
  match room_id self with
  | Some r =>
      let '(rooms, fx, res) := del_client rooms r (self_handle self) in
      {| handler := self; room_manager := rooms; effects := fx; outcome := res |}
  | None => unchanged self rooms (Ok tt)
  end.


End Handler.

(** ** Chat events with their avatar lookup, and the server's connections *)

Module Relay.
Import Avatar Rooms Handler.

(** [__on_receive_danmaku] and [__on_buy_guard] with the lookup they
    await, the lookup run to completion. *)
Definition text_event (g : globals) (now : Z) (self : Room)
    (danmaku : DanmakuMessage) (r : http_outcome)
  : globals * result (list effect) :=
  let c := get_avatar_url g now (uid danmaku) r in
  (after c, __on_receive_danmaku self danmaku (returned c)).


(** The process: the handler objects of the open connections, by
    identity, and the room manager's directory.  [debug_mode] is the
    application's [debug] setting. *)
Record server : Type := {
  debug_mode : bool;
  connections : gmap handle ChatHandler;
  directory : gmap Z Room
}.

(** What the websocket framework delivers: a new connection (a new
    handler object), a message on an open connection, the end of an open
    connection. *)
Inductive delivery : Type :=
| Connect (h : handle)
| Message (h : handle) (time : pyfloat) (decoded : result json)
| Disconnect (h : handle).

Section Conversion.
(** The interpreter's [int] on a [str]. *)
Variable int_str : string -> result Z.

Definition serve (s : server) (d : delivery)
  : server * list effect * result unit :=
  match d with
  | Connect h =>
      match connections s !! h with
      | Some _ => (s, [], Ok tt)
      | None =>
          ({| debug_mode := debug_mode s;
              connections :=
                <[h := {| self_handle := h; Handler.room_id := None;
                          debug := debug_mode s |}]> (connections s);
              directory := directory s |}, [], Ok tt)
      end
  | Message h time decoded =>
      match connections s !! h with
      | None => (s, [], Ok tt)
      | Some self =>
          let hd := on_message int_str time self (directory s) decoded in
          ({| debug_mode := debug_mode s;
              connections := <[h := handler hd]> (connections s);
              directory := room_manager hd |}, effects hd, outcome hd)
      end
  | Disconnect h =>
      match connections s !! h with
      | None => (s, [], Ok tt)
      | Some self =>
          let hd := on_close self (directory s) in
          ({| debug_mode := debug_mode s;
              connections := delete h (connections s);
              directory := room_manager hd |}, effects hd, outcome hd)
      end
  end.

(** The outcomes of the deliveries, in order, and the server after them. *)
Fixpoint serve_all (s : server) (ds : list delivery)
  : list (result unit) * server :=
  match ds with
  | [] => ([], s)
  | d :: ds' =>
      let '(s1, _, res) := serve s d in
      let '(rs, s2) := serve_all s1 ds' in
      (res :: rs, s2)
  end.

End Conversion.

Definition server0 (debug : bool) : server :=
  {| debug_mode := debug; connections := ∅; directory := ∅ |}.

Definition is_disconnect (d : delivery) : bool :=
  match d with Disconnect _ => true | _ => false end.

(** Every open handler knows its own identity; the subscribers of a room
    are distinct open handlers that joined that room; and a handler that
    joined a room is among that room's subscribers. *)
Definition registered (s : server) : Prop :=
  (forall (h : handle) (self : ChatHandler),
      connections s !! h = Some self ->
      self_handle self = h /\ debug self = debug_mode s)
  /\ (forall (r : Z) (room : Room),
        directory s !! r = Some room ->
        List.NoDup (clients room)
        /\ forall c : handle, In c (clients room) ->
             exists self : ChatHandler,
               connections s !! c = Some self /\ Handler.room_id self = Some r)
  /\ (forall (h : handle) (self : ChatHandler) (r : Z),
        connections s !! h = Some self ->
        Handler.room_id self = Some r ->
        exists room : Room, directory s !! r = Some room /\ In h (clients room)).

End Relay.

(** ** Sample states and inputs *)

Module Samples.
Import Avatar Rooms Handler.

Definition g0 : globals :=
  {| _avatar_url_cache := []; _last_fetch_avatar_time := 0;
     _last_avatar_failed_time := None; _uids_to_fetch_avatar := [] |}.

(** A cache at its bound: users 1 .. 50000, inserted in that order. *)
Definition users (n : positive) : dict string :=
  snd (Pos.iter (fun '(k, acc) => (k - 1, (k, "u") :: acc)) (Z.pos n, []) n).

Definition full_cache : dict string := users 50000.

Definition g_full : globals := set_cache full_cache g0.

(** The profile service answering that the user does not exist. *)
Definition no_such_user : http_outcome :=
  Responded 200 "OK" (Ok (JObj [("code", JInt (-404)); ("ttl", JInt 1)])).

Definition rejected : http_outcome :=
  Responded 412 "Precondition Failed" (Raise ContentTypeError).

(** A conversion to run the samples with: it reads an optionally signed
    run of ASCII decimal digits and refuses every other string. *)
Fixpoint digits (cs : list ascii) (acc : Z) (seen : bool) : option Z :=
  match cs with
  | [] => if seen then Some acc else None
  | c :: cs' =>
      let n := nat_of_ascii c in
      if ((48 <=? n) && (n <=? 57))%nat
      then digits cs' (10 * acc + (Z.of_nat n - 48)) true
      else None
  end.

Definition decimal (s : string) : result Z :=
  let signed :=
    match list_ascii_of_string s with
    | c :: cs' =>
        if Ascii.eqb c "-"%char then option_map Z.opp (digits cs' 0 false)
        else if Ascii.eqb c "+"%char then digits cs' 0 false
        else digits (c :: cs') 0 false
    | [] => None
    end in
  match signed with Some z => Ok z | None => Raise ValueError end.

Definition viewer : ChatHandler :=
  {| self_handle := 1%nat; room_id := None; debug := false |}.

Definition join (r : Z) : result json :=
  Ok (JObj [("cmd", JInt 0); ("data", JObj [("roomId", JInt r)])]).

Definition chat (sender flag tier : Z) : DanmakuMessage :=
  {| uid := sender; admin := flag; privilege_type := tier; timestamp := 0;
     uname := "n"; msg := "hello"; msg_type := 0; user_level := 1;
     urank := 5000; mobile_verify := 1; medal_room_id := 0; medal_level := 0 |}.

Definition room_of (owner : Z) (cs : list handle) : Room :=
  {| Rooms.room_id := 12345; room_owner_uid := Some owner;
     is_running := true; clients := cs |}.

Definition gift (coin : string) : GiftMessage :=
  {| coin_type := coin; face := "http://i/g.jpg"; gift_timestamp := 0;
     gift_uname := "n"; gift_name := "rose"; num := 1; total_coin := 100 |}.

(** Room 12345 as the manager leaves it after joins: started, owner not
    learned yet. *)
Definition joined (cs : list handle) : Room :=
  {| Rooms.room_id := 12345; room_owner_uid := None;
     is_running := true; clients := cs |}.

End Samples.

(** * Properties *)

Module SampleRuns.
Import Avatar Rooms Handler Samples.

Example fetch_success :
  get_avatar_url g0 1000000 7 (ok_face "http://i/a.jpg")
  = {| after := {| _avatar_url_cache := [(7, "http://i/a.jpg@48w_48h")];
                   _last_fetch_avatar_time := 1000000;
                   _last_avatar_failed_time := None;
                   _uids_to_fetch_avatar := [] |};
       fetched := [7];
       returned := Ok "http://i/a.jpg@48w_48h" |}.
Proof. reflexivity. Qed.

Example fetch_noface :
  returned (get_avatar_url g0 1000000 7 (ok_face "http://i/noface.gif"))
  = Ok "http://i/noface.gif".
Proof. reflexivity. Qed.

Example throttled :
  get_avatar_url g0 199999 7 (ok_face "http://i/a.jpg")
  = {| after := set_queue [7] g0; fetched := []; returned := Ok DEFAULT_AVATAR_URL |}.
Proof. reflexivity. Qed.

Example fetch_rejected :
  get_avatar_url g0 1000000 7 rejected
  = {| after := set_failed (Some 1000000) (set_last_fetch 1000000 g0);
       fetched := [7]; returned := Ok DEFAULT_AVATAR_URL |}.
Proof. reflexivity. Qed.

Example int_samples :
  int decimal (JStr "123") = Ok 123 /\ int decimal (JStr "-7") = Ok (-7) /\
  int decimal (JBool true) = Ok 1 /\
  int decimal (JFloat (Finite (-7) (-1))) = Ok (-3) /\
  int decimal JNull = Raise TypeError.
Proof. repeat split; reflexivity. Qed.

Example first_join :
  let h := on_message decimal (Finite 0 0) viewer ∅ (join 12345) in
  Handler.room_id (handler h) = Some 12345 /\
  effects h = [Start 12345] /\
  clients <$> room_manager h !! 12345 = Some [1%nat].
Proof. repeat split; reflexivity. Qed.

Example two_subscribers_one_viewer_text :
  __on_receive_danmaku (room_of 9 [1; 2]%nat) (chat 5 0 0) (Ok "a")
  = Ok [ Write 1%nat (json_dumps (JObj [("cmd", JInt 1);
                       ("data", text_payload (room_of 9 [1; 2]%nat) (chat 5 0 0) "a")]));
         Write 2%nat (json_dumps (JObj [("cmd", JInt 1);
                       ("data", text_payload (room_of 9 [1; 2]%nat) (chat 5 0 0) "a")])) ]
  /\ getitem (text_payload (room_of 9 [1; 2]%nat) (chat 5 0 0) "a") "authorType" = Ok (JInt 0)
  /\ getitem (text_payload (room_of 9 [1; 2]%nat) (chat 5 0 0) "a") "isNewbie" = Ok (JBool true).
Proof. repeat split; reflexivity. Qed.

End SampleRuns.

(** ** The avatar resolver *)

Module AvatarFacts.
Import Avatar Samples.

Lemma dict_set_fresh {V} (k : Z) (v : V) (d : dict V) :
  dict_get k d = None -> dict_set k v d = d ++ [(k, v)].
Proof.
  induction d as [|[k' v'] d IH]; simpl; [reflexivity|].
  destruct (k =? k'); [discriminate|].
  intros H. now rewrite IH.
Qed.

Lemma dict_get_set_same {V} (k : Z) (v : V) (d : dict V) :
  dict_get k (dict_set k v d) = Some v.
Proof.
  induction d as [|[k' v'] d IH]; simpl.
  - now rewrite Z.eqb_refl.
  - destruct (k =? k') eqn:E; simpl; [now rewrite Z.eqb_refl | now rewrite E].
Qed.

Lemma dict_len_set {V} (k : Z) (v : V) (d : dict V) :
  dict_len (dict_set k v d) <= dict_len d + 1.
Proof.
  unfold dict_len. induction d as [|[k' v'] d IH]; simpl; [lia|].
  destruct (k =? k'); simpl; lia.
Qed.

(** The eviction loop on a non-empty dict: the first [next] yields the
    oldest key, which is deleted; the second [next] finds the size changed. *)
Lemma evict_first (k : Z) (v : string) (rest : dict string) (n : nat) :
  evict (S (S n)) (dict_iter ((k, v) :: rest)) ((k, v) :: rest)
  = (rest, Raise RuntimeError).
Proof.
  cbn [evict]. unfold dictiter_next at 1. cbn [dict_iter di_used di_pos length nth_error].
  rewrite Nat.eqb_refl. cbn [negb dict_del]. rewrite Z.eqb_refl.
  unfold dictiter_next. cbn [di_used].
  replace (length rest =? S (length rest))%nat with false
    by (symmetry; apply Nat.eqb_neq; lia).
  reflexivity.
Qed.

Lemma begin_miss_fetches (g : globals) (now user_id : Z) :
  dict_get user_id (_avatar_url_cache g) = None ->
  200000 <= now - _last_fetch_avatar_time g ->
  match _last_avatar_failed_time g with
  | Some failed => 183000000 <= now - failed
  | None => True
  end ->
  get_avatar_url_begin g now user_id
  = (set_last_fetch now (set_failed None g), Awaiting now).
Proof.
  intros Hmiss Hgap Hban. unfold get_avatar_url_begin. rewrite Hmiss.
  replace (now - _last_fetch_avatar_time g <? 200000) with false
    by (symmetry; apply Z.ltb_ge; lia).
  destruct g as [c l f q]; simpl in *. destruct f as [failed|].
  - replace (now - failed <? 183000000) with false
      by (symmetry; apply Z.ltb_ge; lia).
    reflexivity.
  - reflexivity.
Qed.

Lemma resume_keeps_last_fetch (g : globals) (t user_id : Z) (r : http_outcome) :
  _last_fetch_avatar_time (fst (get_avatar_url_resume g t user_id r))
  = _last_fetch_avatar_time g.
Proof.
  unfold get_avatar_url_resume.
  destruct r as [e|status reason body]; [now destruct (caught e)|].
  destruct (negb (status =? 200)); [reflexivity|].
  destruct body as [data|e]; [|now destruct (caught e)].
  destruct (_ ← getitem data "data"; _) as [[| | | |url| |]|e]; try reflexivity.
  destruct (50000 <? _); [|reflexivity].
  now destruct (evict _ _ _) as [cache' [[]|e]].
Qed.

(** [_last_fetch_avatar_time] is the time of the last call that sent a
    request: such a call stores the time it read, any other call leaves
    the field alone. *)
Lemma last_fetch_records_attempts (g : globals) (now user_id : Z)
    (r : http_outcome) :
  let c := get_avatar_url g now user_id r in
  (fetched c = [user_id] /\ _last_fetch_avatar_time (after c) = now)
  \/ (fetched c = [] /\ _last_fetch_avatar_time (after c) = _last_fetch_avatar_time g).
Proof.
  cbv zeta. unfold get_avatar_url.
  destruct (get_avatar_url_begin g now user_id) as [g1 b] eqn:Hb.
  unfold get_avatar_url_begin in Hb.
  destruct (dict_get user_id (_avatar_url_cache g)).
  { injection Hb as <- <-. now right. }
  destruct (now - _last_fetch_avatar_time g <? 200000).
  { injection Hb as <- <-. right. split; [reflexivity|].
    cbn [after]. now destruct (put_nowait _ _). }
  assert (Hgo : forall g', (g1, b) = (set_last_fetch now g', Awaiting now) ->
     (fetched (let '(g2, res) := get_avatar_url_resume g1 now user_id r in
               {| after := g2; fetched := [user_id]; returned := res |}) = [user_id]
      /\ _last_fetch_avatar_time
           (after (let '(g2, res) := get_avatar_url_resume g1 now user_id r in
                   {| after := g2; fetched := [user_id]; returned := res |})) = now)).
  { intros g' [= -> _].
    pose proof (resume_keeps_last_fetch (set_last_fetch now g') now user_id r) as H.
    destruct (get_avatar_url_resume (set_last_fetch now g') now user_id r).
    now split. }
  destruct (_last_avatar_failed_time g) as [failed|].
  - destruct (now - failed <? 183000000).
    + injection Hb as <- <-. now right.
    + left. injection Hb as <- <-. now apply (Hgo (set_failed None g)).
  - left. injection Hb as <- <-. now apply (Hgo g).
Qed.

(** A well-formed reply for a new user, arriving when the cache is at its
    bound: the user is stored, the oldest binding alone is deleted, and the
    call raises. *)
Lemma resume_at_bound (g : globals) (t user_id : Z) (url : string)
    (k : Z) (v : string) (rest : dict string) :
  _avatar_url_cache g = (k, v) :: rest ->
  dict_get user_id (_avatar_url_cache g) = None ->
  50000 <= dict_len (_avatar_url_cache g) ->
  get_avatar_url_resume g t user_id (ok_face url)
  = (set_cache (rest ++ [(user_id, sized url)]) g, Raise RuntimeError).
Proof.
  intros Hc Hmiss Hlen. unfold get_avatar_url_resume, ok_face.
  cbn [negb Z.eqb Pos.eqb mbind result_bind getitem assoc String.eqb Ascii.eqb Bool.eqb].
  simpl (200 =? 200). cbn iota. cbn beta.
  fold (sized url). rewrite (dict_set_fresh _ _ _ Hmiss).
  replace (50000 <? dict_len (_avatar_url_cache g ++ [(user_id, sized url)])) with true.
  2:{ symmetry. apply Z.ltb_lt. unfold dict_len in *. rewrite length_app. simpl. lia. }
  rewrite Hc. rewrite <- app_comm_cons. change 100%nat with (S (S 98)).
  now rewrite evict_first.
Qed.

Lemma put_nowait_offered (g : globals) (user_id : Z) :
  match put_nowait user_id (_uids_to_fetch_avatar g) with
  | Ok q => set_queue q g
  | Raise _ => g
  end = set_queue (offered user_id (_uids_to_fetch_avatar g)) g.
Proof.
  unfold put_nowait, offered, maxsize.
  destruct (Z.leb_spec 15 (Z.of_nat (length (_uids_to_fetch_avatar g)))) as [H|H].
  - replace (_ <? 15) with false by (symmetry; apply Z.ltb_ge; lia).
    now destruct g.
  - now replace (_ <? 15) with true by (symmetry; apply Z.ltb_lt; lia).
Qed.

(** C3: a cache miss less than 200 ms after the last fetch attempt sends no
    request and does not suspend; the user id is appended to the pending
    queue when the queue holds fewer than 15 ids and dropped otherwise, so
    the queue stays within its capacity; nothing else changes, and the call
    returns the default placeholder. *)
Theorem throttled_miss_is_deferred (g : globals) (now user_id : Z)
    (r : http_outcome) :
  dict_get user_id (_avatar_url_cache g) = None ->
  now - _last_fetch_avatar_time g < 200000 ->
  get_avatar_url_begin g now user_id
  = (set_queue (offered user_id (_uids_to_fetch_avatar g)) g,
     Returned DEFAULT_AVATAR_URL)
  /\ get_avatar_url g now user_id r
     = {| after := set_queue (offered user_id (_uids_to_fetch_avatar g)) g;
          fetched := [];
          returned := Ok DEFAULT_AVATAR_URL |}
  /\ (Z.of_nat (length (_uids_to_fetch_avatar g)) < 15 ->
      offered user_id (_uids_to_fetch_avatar g) = _uids_to_fetch_avatar g ++ [user_id])
  /\ (15 <= Z.of_nat (length (_uids_to_fetch_avatar g)) ->
      offered user_id (_uids_to_fetch_avatar g) = _uids_to_fetch_avatar g)
  /\ (Z.of_nat (length (_uids_to_fetch_avatar g)) <= 15 ->
      Z.of_nat (length (offered user_id (_uids_to_fetch_avatar g))) <= 15).
Proof.
  intros Hmiss Hgap.
  assert (Hb : get_avatar_url_begin g now user_id
               = (set_queue (offered user_id (_uids_to_fetch_avatar g)) g,
                  Returned DEFAULT_AVATAR_URL)).
  { unfold get_avatar_url_begin. rewrite Hmiss.
    replace (now - _last_fetch_avatar_time g <? 200000) with true
      by (symmetry; apply Z.ltb_lt; lia).
    now rewrite put_nowait_offered. }
  split; [exact Hb|]. split; [unfold get_avatar_url; now rewrite Hb|].
  unfold offered. repeat split; intros H.
  - now replace (_ <? 15) with true by (symmetry; apply Z.ltb_lt; lia).
  - now replace (_ <? 15) with false by (symmetry; apply Z.ltb_ge; lia).
  - destruct (Z.ltb_spec (Z.of_nat (length (_uids_to_fetch_avatar g))) 15);
      [rewrite length_app; simpl; lia | lia].
Qed.

Lemma throttled_miss_is_deferred_witness :
  get_avatar_url g0 199999 7 rejected
  = {| after := set_queue [7] g0; fetched := []; returned := Ok DEFAULT_AVATAR_URL |}.
Proof.
  refine (proj1 (proj2 (throttled_miss_is_deferred g0 199999 7 rejected _ _)));
    [reflexivity | vm_compute; reflexivity].
Defined.

(** While the backoff is running a call sends nothing and leaves the
    cache, the failure time and the last-fetch time as they are. *)
Lemma call_in_backoff (g : globals) (failed now user_id : Z) (r : http_outcome) :
  _last_avatar_failed_time g = Some failed ->
  now - failed < 183000000 ->
  let c := get_avatar_url g now user_id r in
  fetched c = []
  /\ returned c = Ok (offline (_avatar_url_cache g) user_id)
  /\ _avatar_url_cache (after c) = _avatar_url_cache g
  /\ _last_avatar_failed_time (after c) = Some failed
  /\ _last_fetch_avatar_time (after c) = _last_fetch_avatar_time g.
Proof.
  intros Hf Hw. unfold get_avatar_url, get_avatar_url_begin, offline.
  destruct (dict_get user_id (_avatar_url_cache g)) as [url|]; [now simpl|].
  destruct (now - _last_fetch_avatar_time g <? 200000).
  - rewrite put_nowait_offered. now simpl.
  - rewrite Hf.
    replace (now - failed <? 183000000) with true
      by (symmetry; apply Z.ltb_lt; lia).
    now simpl.
Qed.

Lemma run_in_backoff (rs : list request) :
  forall (g : globals) (failed : Z),
    _last_avatar_failed_time g = Some failed ->
    Forall (fun r => at_time r - failed < 183000000) rs ->
    Forall (fun c => fetched c = []) (run g rs)
    /\ Forall2 (fun r c => returned c = Ok (offline (_avatar_url_cache g) (for_user r)))
               rs (run g rs).
Proof.
  induction rs as [|r rs IH]; intros g failed Hf Hall; simpl.
  - split; constructor.
  - inversion Hall as [|? ? Hr Hrs]; subst.
    destruct (call_in_backoff g failed (at_time r) (for_user r) (network r) Hf Hr)
      as (Hfetch & Hret & Hcache & Hfailed & _).
    destruct (IH _ failed Hfailed Hrs) as [IH1 IH2].
    split; constructor; auto.
    rewrite Hcache in IH2. exact IH2.
Qed.

(** C4 as stated fails for a cached user id: two seconds after a rejected
    fetch, a call for the user cached earlier returns the cached URL, not
    the default placeholder. *)
Lemma backoff_serves_cached_url :
  map returned
    (run g0 [ {| at_time := 1000000; for_user := 1; network := ok_face "http://i/a.jpg" |};
              {| at_time := 2000000; for_user := 2; network := rejected |};
              {| at_time := 4000000; for_user := 1; network := rejected |} ])
  = [ Ok "http://i/a.jpg@48w_48h"; Ok DEFAULT_AVATAR_URL; Ok "http://i/a.jpg@48w_48h" ]
  /\ 4000000 - 2000000 < 183000000
  /\ Ok "http://i/a.jpg@48w_48h" <> Ok (A:=string) DEFAULT_AVATAR_URL.
Proof. split; [reflexivity | split; [lia | discriminate]]. Qed.

Lemma call_at_bound (g : globals) (now user_id : Z) (url : string)
    (k : Z) (v : string) (rest : dict string) :
  _avatar_url_cache g = (k, v) :: rest ->
  dict_get user_id (_avatar_url_cache g) = None ->
  50000 <= dict_len (_avatar_url_cache g) ->
  200000 <= now - _last_fetch_avatar_time g ->
  _last_avatar_failed_time g = None ->
  get_avatar_url g now user_id (ok_face url)
  = {| after := set_cache (rest ++ [(user_id, sized url)])
                  (set_last_fetch now (set_failed None g));
       fetched := [user_id];
       returned := Raise RuntimeError |}.
Proof.
  intros Hc Hmiss Hlen Hgap Hf. unfold get_avatar_url.
  rewrite begin_miss_fetches by (auto; now rewrite Hf).
  now rewrite (resume_at_bound _ now user_id url k v rest) by assumption.
Qed.

(** Whatever the reply, a call leaves at most 50,000 users cached when it
    found at most that many: the insertion adds one binding at most, and
    the eviction loop deletes one before it raises. *)
Lemma resume_keeps_bound (g : globals) (t user_id : Z) (r : http_outcome) :
  dict_len (_avatar_url_cache g) <= 50000 ->
  dict_len (_avatar_url_cache (fst (get_avatar_url_resume g t user_id r))) <= 50000.
Proof.
  intros Hlen. unfold get_avatar_url_resume.
  destruct r as [e|status reason body]; [now destruct (caught e)|].
  destruct (negb (status =? 200)); [exact Hlen|].
  destruct body as [data|e]; [|now destruct (caught e)].
  destruct (_ ← getitem data "data"; _) as [[| | | |url| |]|e]; try exact Hlen.
  set (url' := if endswith url "noface.gif" then url else url +:+ "@48w_48h").
  pose proof (dict_len_set user_id url' (_avatar_url_cache g)) as Hset.
  destruct (Z.ltb_spec 50000 (dict_len (dict_set user_id url' (_avatar_url_cache g))))
    as [Hover|Hfit]; [|cbn; lia].
  destruct (dict_set user_id url' (_avatar_url_cache g)) as [|[k v] rest] eqn:Hc.
  { unfold dict_len in Hover. simpl in Hover. lia. }
  change 100%nat with (S (S 98)). rewrite evict_first. cbn.
  unfold dict_len in *. simpl in Hset. lia.
Qed.

Lemma call_keeps_bound (g : globals) (now user_id : Z) (r : http_outcome) :
  dict_len (_avatar_url_cache g) <= 50000 ->
  dict_len (_avatar_url_cache (after (get_avatar_url g now user_id r))) <= 50000.
Proof.
  intros Hlen. unfold get_avatar_url.
  destruct (get_avatar_url_begin g now user_id) as [g1 b] eqn:Hb.
  assert (Hg1 : _avatar_url_cache g1 = _avatar_url_cache g).
  { unfold get_avatar_url_begin in Hb.
    destruct (dict_get user_id (_avatar_url_cache g)); [now injection Hb as <- _|].
    destruct (now - _last_fetch_avatar_time g <? 200000).
    - rewrite put_nowait_offered in Hb. now injection Hb as <- _.
    - destruct (_last_avatar_failed_time g) as [failed|];
        [destruct (now - failed <? 183000000)|]; now injection Hb as <- _. }
  destruct b as [url|cur_time]; cbn [after]; [now rewrite Hg1|].
  pose proof (resume_keeps_bound g1 cur_time user_id r) as H.
  destruct (get_avatar_url_resume g1 cur_time user_id r) as [g2 res].
  cbn [after]. apply H. now rewrite Hg1.
Qed.

Lemma full_cache_len : dict_len full_cache = 50000.
Proof. vm_compute. reflexivity. Qed.

Lemma full_cache_fresh : dict_get 0 full_cache = None.
Proof. vm_compute. reflexivity. Qed.

Lemma hd_error_tl {A} (x : A) (l : list A) :
  hd_error l = Some x -> l = x :: tl l.
Proof. destruct l; simpl; congruence. Qed.

Lemma full_cache_oldest : full_cache = (1, "u") :: tl full_cache.
Proof. apply hd_error_tl. vm_compute. reflexivity. Qed.

Lemma call_on_full_cache (url : string) :
  get_avatar_url g_full 1000000 0 (ok_face url)
  = {| after := set_cache (tl full_cache ++ [(0, sized url)])
                  (set_last_fetch 1000000 (set_failed None g_full));
       fetched := [0];
       returned := Raise RuntimeError |}.
Proof.
  apply (call_at_bound g_full 1000000 0 url 1 "u").
  - exact full_cache_oldest.
  - exact full_cache_fresh.
  - change (50000 <= dict_len full_cache). rewrite full_cache_len. lia.
  - change (200000 <= 1000000 - 0). lia.
  - reflexivity.
Qed.

(** C1: two calls that raise instead of returning a URL.  (i) The profile
    service replies 200 with a body that has no [data] entry: the call
    raises KeyError.  (ii) A well-formed reply for a new user arrives when
    the cache holds 50,000 entries: the call raises RuntimeError out of the
    eviction loop. *)
Theorem get_avatar_url_raises :
  get_avatar_url g0 1000000 7 no_such_user
  = {| after := set_last_fetch 1000000 g0; fetched := [7]; returned := Raise KeyError |}
  /\ returned (get_avatar_url g_full 1000000 0 (ok_face "http://i/a.jpg"))
     = Raise RuntimeError.
Proof.
  split; [reflexivity|]. now rewrite call_on_full_cache.
Qed.

(** C5: with 50,000 users cached, a successful fetch for a new user stores
    it (50,001 entries), deletes one entry and raises: the cache is left
    with 50,000 entries, one less than after the insertion and not the
    hundred less of a completed batch. *)
Theorem eviction_deletes_one_entry :
  let c := get_avatar_url g_full 1000000 0 (ok_face "http://i/a.jpg") in
  dict_len (_avatar_url_cache g_full) = 50000
  /\ dict_len (_avatar_url_cache (after c)) = 50000
  /\ ~ dict_len (_avatar_url_cache (after c)) <= 50001 - 100
  /\ returned c = Raise RuntimeError.
Proof.
  cbv zeta. rewrite call_on_full_cache. cbn [after returned set_cache _avatar_url_cache].
  assert (H : dict_len (tl full_cache ++ [(0, sized "http://i/a.jpg")]) = 50000)
    by (vm_compute; reflexivity).
  rewrite H. change (_avatar_url_cache g_full) with full_cache.
  rewrite full_cache_len. repeat split; lia.
Qed.

(** C10: in the same call the only key deleted is the oldest one (user 1);
    the second oldest (user 2) and the new user are still cached, the call
    itself raises rather than returning the fetched URL, and the next call
    for the new user is a cache hit on that URL. *)
Theorem eviction_deletes_only_the_oldest :
  let c := get_avatar_url g_full 1000000 0 (ok_face "http://i/a.jpg") in
  _avatar_url_cache (after c) = tl full_cache ++ [(0, "http://i/a.jpg@48w_48h")]
  /\ dict_get 1 (_avatar_url_cache g_full) = Some "u"
  /\ dict_get 1 (_avatar_url_cache (after c)) = None
  /\ dict_get 2 (_avatar_url_cache (after c)) = Some "u"
  /\ dict_get 0 (_avatar_url_cache (after c)) = Some "http://i/a.jpg@48w_48h"
  /\ returned c = Raise RuntimeError
  /\ (forall r, get_avatar_url (after c) 1000001 0 r
                = {| after := after c; fetched := [];
                     returned := Ok "http://i/a.jpg@48w_48h" |}).
Proof.
  cbv zeta. rewrite call_on_full_cache. cbn [after returned set_cache _avatar_url_cache].
  change (sized "http://i/a.jpg") with "http://i/a.jpg@48w_48h".
  assert (H0 : dict_get 0 (tl full_cache ++ [(0, "http://i/a.jpg@48w_48h")])
               = Some "http://i/a.jpg@48w_48h") by (vm_compute; reflexivity).
  split; [reflexivity|].
  split; [vm_compute; reflexivity|].
  split; [vm_compute; reflexivity|].
  split; [vm_compute; reflexivity|].
  split; [exact H0|].
  split; [reflexivity|].
  intros r. unfold get_avatar_url, get_avatar_url_begin.
  cbn [set_cache _avatar_url_cache]. now rewrite H0.
Qed.

(** C6 (amended): one turn of the worker.  With an empty queue it waits.
    Otherwise it takes the oldest id off the queue and touches nothing
    else; an id that is cached is skipped; for any other id it sleeps for
    what is left of 400 ms since the last fetch attempt (nothing when 400
    ms have passed) and then schedules the lookup, whose result the turn
    does not wait for. *)
Theorem worker_turn (g : globals) (now : Z) :
  match _uids_to_fetch_avatar g with
  | [] => _fetch_avatar_loop g now = (g, Blocked)
  | user_id :: q =>
      fst (_fetch_avatar_loop g now) = set_queue q g
      /\ (dict_get user_id (_avatar_url_cache g) <> None ->
          snd (_fetch_avatar_loop g now) = Skipped user_id)
      /\ (dict_get user_id (_avatar_url_cache g) = None ->
          exists slept : Z,
            snd (_fetch_avatar_loop g now) = Spawned user_id slept
            /\ 0 <= slept
            /\ (400000 <= now - _last_fetch_avatar_time g -> slept = 0)
            /\ (now - _last_fetch_avatar_time g < 400000 ->
                (now + slept) - _last_fetch_avatar_time g = 400000))
  end.
Proof.
  unfold _fetch_avatar_loop, dict_contains.
  destruct (_uids_to_fetch_avatar g) as [|user_id q]; [reflexivity|].
  cbn [set_queue _avatar_url_cache _last_fetch_avatar_time].
  destruct (dict_get user_id (_avatar_url_cache g)) as [url|]; cbn [fst snd].
  - split; [reflexivity|]. split; [reflexivity|discriminate].
  - split; [reflexivity|]. split; [congruence|]. intros _.
    eexists. split; [reflexivity|]. unfold sleep. lia.
Qed.

Lemma worker_turn_witness :
  exists slept : Z,
    snd (_fetch_avatar_loop (set_queue [7] g0) 250000) = Spawned 7 slept
    /\ 0 <= slept
    /\ (400000 <= 250000 - _last_fetch_avatar_time (set_queue [7] g0) -> slept = 0)
    /\ (250000 - _last_fetch_avatar_time (set_queue [7] g0) < 400000 ->
        (250000 + slept) - _last_fetch_avatar_time (set_queue [7] g0) = 400000).
Proof.
  exact (proj2 (proj2 (worker_turn (set_queue [7] g0) 250000)) eq_refl).
Defined.

(** C6 as stated fails: 250 ms after the last fetch attempt the worker
    still sleeps 150 ms, where the remainder of a 200 ms interval is zero. *)
Lemma worker_sleeps_past_200ms :
  snd (_fetch_avatar_loop (set_queue [7] g0) 250000) = Spawned 7 150000
  /\ Z.max 0 (200000 - (250000 - _last_fetch_avatar_time (set_queue [7] g0))) = 0
  /\ 150000 <> 0.
Proof. split; [reflexivity | split; [reflexivity | discriminate]]. Qed.

End AvatarFacts.

(** ** Rooms and the room manager *)

Module RoomFacts.
Import Rooms Samples.

Lemma count_app (p : effect -> bool) (a b : list effect) :
  count p (a ++ b) = (count p a + count p b)%nat.
Proof. induction a as [|e a IH]; simpl; [reflexivity|]. rewrite IH. lia. Qed.

Lemma count_writes (p : effect -> bool) (fx : list effect) :
  (forall c b, p (Write c b) = false) ->
  forallb is_write fx = true -> count p fx = 0%nat.
Proof.
  intros Hp. induction fx as [|e fx IH]; simpl; [reflexivity|].
  intros H. apply andb_prop in H as [He Hfx].
  destruct e; try discriminate. rewrite Hp. auto.
Qed.

Lemma send_message_writes (self : Room) (cmd : Command) (data : json) :
  forallb is_write (send_message self cmd data) = true.
Proof.
  unfold send_message. induction (clients self) as [|c cs IH]; simpl; auto.
Qed.

Lemma __send_test_message_writes (room : Room) (time : pyfloat) :
  forallb is_write (__send_test_message room time) = true.
Proof.
  unfold __send_test_message. cbv zeta.
  repeat rewrite forallb_app. now rewrite !send_message_writes.
Qed.

Lemma list_remove_only (c : handle) : list_remove c [c] = Some [].
Proof. simpl. now rewrite Nat.eqb_refl. Qed.

(** Joining a room id that is not in the directory. *)
Lemma add_client_new (debug : bool) (time : pyfloat) (rooms : gmap Z Room)
    (r : Z) (c : handle) :
  rooms !! r = None ->
  exists writes : list effect,
    add_client debug time rooms r c
    = (<[r := {| room_id := r; room_owner_uid := None;
                 is_running := true; clients := [c] |}]> rooms,
       Start r :: writes)
    /\ forallb is_write writes = true
    /\ (debug = false -> writes = []).
Proof.
  intros Hr. unfold add_client. rewrite Hr. unfold start, Room_init.
  cbv beta iota zeta.
  eexists. split; [reflexivity|]. destruct debug.
  - split; [apply __send_test_message_writes | discriminate].
  - split; reflexivity.
Qed.

(** Joining a room id that is in the directory. *)
Lemma add_client_known (debug : bool) (time : pyfloat) (rooms : gmap Z Room)
    (r : Z) (c : handle) (room : Room) :
  rooms !! r = Some room ->
  exists writes : list effect,
    add_client debug time rooms r c
    = (<[r := set_clients (clients room ++ [c]) room]> rooms, writes)
    /\ forallb is_write writes = true
    /\ (debug = false -> writes = []).
Proof.
  intros Hr. unfold add_client. rewrite Hr. cbv beta iota zeta.
  eexists. split; [reflexivity|]. destruct debug.
  - split; [apply __send_test_message_writes | discriminate].
  - split; reflexivity.
Qed.

Lemma not_start_write r c b : is_start r (Write c b) = false.
Proof. reflexivity. Qed.
Lemma not_stop_write r c b : is_stop r (Write c b) = false.
Proof. reflexivity. Qed.
Lemma not_close_write r c b : is_close r (Write c b) = false.
Proof. reflexivity. Qed.

Lemma consistent_add_client (debug : bool) (time : pyfloat)
    (rooms : gmap Z Room) (done : list effect) (r : Z) (c : handle) :
  consistent rooms done ->
  consistent (fst (add_client debug time rooms r c))
             (done ++ snd (add_client debug time rooms r c)).
Proof.
  intros (Hrooms & Hstart & Hstop).
  destruct (rooms !! r) as [room|] eqn:Hr.
  - destruct (add_client_known debug time rooms r c room Hr) as (ws & -> & Hws & _).
    cbn [fst snd]. destruct (Hrooms r room Hr) as (Hid & Hrun & Hcs).
    split; [|split].
    + intros r' room'. rewrite lookup_insert. case_decide as E.
      * subst r'. intros [= <-]. cbn. repeat split; auto.
        now destruct (clients room).
      * apply Hrooms.
    + intros r'. rewrite count_app, (count_app (is_close r')).
      rewrite (count_writes _ ws (not_start_write r') Hws).
      rewrite (count_writes _ ws (not_close_write r') Hws).
      rewrite Hstart, lookup_insert. case_decide as E; [subst r'; rewrite Hr|]; lia.
    + intros r'. rewrite count_app, (count_app (is_close r')).
      rewrite (count_writes _ ws (not_stop_write r') Hws).
      rewrite (count_writes _ ws (not_close_write r') Hws).
      rewrite Hstop. lia.
  - destruct (add_client_new debug time rooms r c Hr) as (ws & -> & Hws & _).
    cbn [fst snd]. split; [|split].
    + intros r' room'. rewrite lookup_insert. case_decide as E.
      * subst r'. intros [= <-]. cbn. repeat split; auto; discriminate.
      * apply Hrooms.
    + intros r'. rewrite count_app, (count_app (is_close r')). cbn [count].
      rewrite (count_writes _ ws (not_start_write r') Hws).
      rewrite (count_writes _ ws (not_close_write r') Hws).
      rewrite Hstart, lookup_insert. cbn [is_start is_close].
      case_decide as E.
      * subst r'. rewrite Hr, Z.eqb_refl. lia.
      * replace (r' =? r) with false by (symmetry; apply Z.eqb_neq; congruence).
        lia.
    + intros r'. rewrite count_app, (count_app (is_close r')). cbn [count].
      rewrite (count_writes _ ws (not_stop_write r') Hws).
      rewrite (count_writes _ ws (not_close_write r') Hws).
      rewrite Hstop. cbn. lia.
Qed.

Lemma consistent_del_client (rooms : gmap Z Room) (done : list effect)
    (r : Z) (c : handle) :
  consistent rooms done ->
  consistent (fst (fst (del_client rooms r c)))
             (done ++ snd (fst (del_client rooms r c))).
Proof.
  intros Hall. pose proof Hall as (Hrooms & Hstart & Hstop). unfold del_client.
  destruct (rooms !! r) as [room|] eqn:Hr;
    [|cbn [fst snd]; now rewrite app_nil_r].
  destruct (list_remove c (clients room)) as [cs|];
    [|cbn [fst snd]; now rewrite app_nil_r].
  destruct (Hrooms r room Hr) as (Hid & Hrun & _).
  destruct cs as [|c' cs]; cbn [fst snd].
  - unfold stop_and_close. cbn [set_clients is_running room_id].
    rewrite Hrun, Hid. split; [|split].
    + intros r' room'. rewrite lookup_delete. case_decide; [discriminate|].
      apply Hrooms.
    + intros r'. rewrite count_app, (count_app (is_close r')).
      cbn [count is_start is_close]. rewrite Hstart, lookup_delete.
      case_decide as E.
      * subst r'. rewrite Hr, Z.eqb_refl. lia.
      * replace (r' =? r) with false by (symmetry; apply Z.eqb_neq; congruence).
        lia.
    + intros r'. rewrite count_app, (count_app (is_close r')).
      cbn [count is_stop is_close]. rewrite Hstop. lia.
  - rewrite app_nil_r. split; [|split]; [| |exact Hstop].
    + intros r' room'. rewrite lookup_insert. case_decide as E.
      * subst r'. intros [= <-]. cbn. repeat split; auto; discriminate.
      * apply Hrooms.
    + intros r'. rewrite Hstart, lookup_insert.
      case_decide as E; [subst r'; now rewrite Hr | reflexivity].
Qed.

Lemma consistent_drive (ops : list op) :
  forall (rooms : gmap Z Room) (done : list effect),
    consistent rooms done ->
    consistent (fst (drive rooms done ops)) (snd (drive rooms done ops)).
Proof.
  induction ops as [|o ops IH]; intros rooms done H; [exact H|].
  cbn [drive]. destruct (apply rooms o) as [rooms' fx] eqn:Ho. apply IH.
  destruct o as [debug time r c | r c]; cbn [apply] in Ho.
  - pose proof (consistent_add_client debug time rooms done r c H) as H'.
    now rewrite Ho in H'.
  - pose proof (consistent_del_client rooms done r c H) as H'.
    now rewrite Ho in H'.
Qed.

Lemma consistent_empty : consistent ∅ [].
Proof.
  split; [|split]; intros r; [|reflexivity|reflexivity].
  intros room. now rewrite lookup_empty.
Qed.

(** C2: in any directory the manager can reach from the empty one by joins
    and leaves, the clients started for a room id are the ones closed plus
    one exactly when the id is in the directory (so there is never more
    than one live Room per id), and every room in the directory has a
    subscriber.  In such a directory: joining an id with no subscribers
    files one new Room under it, issues one start for that id before
    anything else, and makes the subscriber its only one; joining a known
    id starts nothing and appends the subscriber; removing the only
    subscriber issues stop then close, once, and removes the id; removing
    from an unknown id changes nothing and does nothing. *)
Theorem one_room_per_id (ops : list op) (rooms : gmap Z Room)
    (done : list effect) :
  drive ∅ [] ops = (rooms, done) ->
  consistent rooms done
  /\ (forall (debug : bool) (time : pyfloat) (r : Z) (c : handle),
        subscribers rooms r = [] ->
        exists writes : list effect,
          add_client debug time rooms r c
          = (<[r := {| room_id := r; room_owner_uid := None;
                       is_running := true; clients := [c] |}]> rooms,
             Start r :: writes)
          /\ forallb is_write writes = true
          /\ count (is_start r) (Start r :: writes) = 1%nat)
  /\ (forall (debug : bool) (time : pyfloat) (r : Z) (c : handle) (room : Room),
        rooms !! r = Some room ->
        exists writes : list effect,
          add_client debug time rooms r c
          = (<[r := set_clients (clients room ++ [c]) room]> rooms, writes)
          /\ forallb is_write writes = true)
  /\ (forall (r : Z) (c : handle),
        subscribers rooms r = [c] ->
        del_client rooms r c = (delete r rooms, [Stop r; Close r], Ok tt))
  /\ (forall (r : Z) (c : handle),
        rooms !! r = None ->
        del_client rooms r c = (rooms, [], Ok tt)).
Proof.
  intros Hrun.
  assert (Hall : consistent rooms done).
  { pose proof (consistent_drive ops ∅ [] consistent_empty) as H.
    now rewrite Hrun in H. }
  split; [exact Hall|]. destruct Hall as (Hrooms & _ & _).
  split; [|split; [|split]].
  - intros debug time r c Hsub. unfold subscribers in Hsub.
    destruct (rooms !! r) as [room|] eqn:Hr.
    { now destruct (Hrooms r room Hr) as (_ & _ & Hne). }
    destruct (add_client_new debug time rooms r c Hr) as (ws & Heq & Hws & _).
    exists ws. split; [exact Heq|]. split; [exact Hws|].
    cbn [count is_start]. rewrite Z.eqb_refl.
    now rewrite (count_writes _ ws (not_start_write r) Hws).
  - intros debug time r c room Hr.
    destruct (add_client_known debug time rooms r c room Hr) as (ws & Heq & Hws & _).
    now exists ws.
  - intros r c Hsub. unfold subscribers in Hsub. unfold del_client.
    destruct (rooms !! r) as [room|] eqn:Hr; [|discriminate].
    destruct (Hrooms r room Hr) as (Hid & Hrunning & _).
    rewrite Hsub, list_remove_only. unfold stop_and_close.
    cbn [set_clients is_running room_id]. now rewrite Hrunning, Hid.
  - intros r c Hr. unfold del_client. now rewrite Hr.
Qed.

Lemma one_room_per_id_witness :
  del_client (<[12345 := joined [2%nat]]> ∅) 12345 2%nat
  = (delete 12345 (<[12345 := joined [2%nat]]> ∅),
     [Stop 12345; Close 12345], Ok tt).
Proof.
  refine (proj1 (proj2 (proj2 (proj2
    (one_room_per_id
       [Join false (Finite 0 0) 12345 1%nat; Join false (Finite 0 0) 12345 2%nat;
        Leave 12345 1%nat]
       (<[12345 := joined [2%nat]]> ∅)
       [Start 12345] _)))) 12345 2%nat _).
  - vm_compute. reflexivity.
  - reflexivity.
Defined.

(** C7: the [authorType] a chat event is broadcast with.  The room owner
    is 3 whatever the other fields are; failing that, a set admin flag
    gives 2; failing that, a non-zero privilege type gives 1; otherwise 0. *)
Theorem author_type_precedence (self : Room) (danmaku : DanmakuMessage)
    (avatar_url : string) :
  __on_receive_danmaku self danmaku (Ok avatar_url)
  = Ok (send_message self ADD_TEXT (text_payload self danmaku avatar_url))
  /\ getitem (text_payload self danmaku avatar_url) "authorType"
     = Ok (JInt (author_type self danmaku))
  /\ (room_owner_uid self = Some (uid danmaku) -> author_type self danmaku = 3)
  /\ (room_owner_uid self <> Some (uid danmaku) ->
      admin danmaku <> 0 -> author_type self danmaku = 2)
  /\ (room_owner_uid self <> Some (uid danmaku) ->
      admin danmaku = 0 -> privilege_type danmaku <> 0 ->
      author_type self danmaku = 1)
  /\ (room_owner_uid self <> Some (uid danmaku) ->
      admin danmaku = 0 -> privilege_type danmaku = 0 ->
      author_type self danmaku = 0).
Proof.
  split; [reflexivity|]. split; [reflexivity|].
  unfold author_type, truthy.
  destruct (room_owner_uid self) as [owner|].
  - destruct (Z.eqb_spec (uid danmaku) owner) as [->|Hne];
      destruct (Z.eqb_spec (admin danmaku) 0);
      destruct (Z.eqb_spec (privilege_type danmaku) 0);
      repeat split; intros; cbn; congruence.
  - destruct (Z.eqb_spec (admin danmaku) 0);
      destruct (Z.eqb_spec (privilege_type danmaku) 0);
      repeat split; intros; cbn; congruence.
Qed.

Lemma author_type_precedence_witness :
  author_type (room_of 9 []) (chat 9 1 3) = 3
  /\ author_type (room_of 9 []) (chat 5 1 3) = 2
  /\ author_type (room_of 9 []) (chat 5 0 3) = 1
  /\ author_type (room_of 9 []) (chat 5 0 0) = 0.
Proof.
  pose proof (author_type_precedence (room_of 9 []) (chat 9 1 3) "a")
    as (_ & _ & H3 & _).
  pose proof (author_type_precedence (room_of 9 []) (chat 5 1 3) "a")
    as (_ & _ & _ & H2 & _).
  pose proof (author_type_precedence (room_of 9 []) (chat 5 0 3) "a")
    as (_ & _ & _ & _ & H1 & _).
  pose proof (author_type_precedence (room_of 9 []) (chat 5 0 0) "a")
    as (_ & _ & _ & _ & _ & H0).
  split; [apply H3; reflexivity|].
  split; [apply H2; discriminate|].
  split; [apply H1; [discriminate | reflexivity | discriminate]|].
  apply H0; [discriminate | reflexivity | reflexivity].
Defined.

Lemma count_write_to (c : handle) (body : encoded) (cs : list handle) :
  count (is_write_to c) (map (fun client => Write client body) cs)
  = count_occ Nat.eq_dec cs c.
Proof.
  induction cs as [|c' cs IH]; simpl; [reflexivity|]. rewrite IH.
  destruct (Nat.eq_dec c' c) as [->|Hne].
  - now rewrite Nat.eqb_refl.
  - replace (c =? c')%nat with false by (symmetry; apply Nat.eqb_neq; congruence).
    reflexivity.
Qed.

(** C8: a broadcast encodes [{cmd, data}] into one body and writes that
    body to the subscribers one after the other in the order they joined:
    as many writes as subscribers, the i-th write going to the i-th
    subscriber, so each subscriber is written to exactly once; with no
    subscribers nothing is done. *)
Theorem broadcast_reaches_every_subscriber (self : Room) (cmd : Command)
    (data : json) :
  let body := json_dumps (JObj [("cmd", JInt (value cmd)); ("data", data)]) in
  send_message self cmd data = map (fun client => Write client body) (clients self)
  /\ length (send_message self cmd data) = length (clients self)
  /\ (forall (i : nat) (c : handle),
        nth_error (clients self) i = Some c ->
        nth_error (send_message self cmd data) i = Some (Write c body))
  /\ (forall e : effect, In e (send_message self cmd data) ->
        exists c : handle, In c (clients self) /\ e = Write c body)
  /\ (List.NoDup (clients self) ->
      forall c : handle, In c (clients self) ->
        count (is_write_to c) (send_message self cmd data) = 1%nat)
  /\ (clients self = [] -> send_message self cmd data = []).
Proof.
  cbv zeta. unfold send_message.
  split; [reflexivity|]. split; [apply length_map|].
  split.
  { intros i c H.
    now apply (map_nth_error (fun client => Write client _) i (clients self)). }
  split.
  { intros e He. apply in_map_iff in He as (c & <- & Hc). now exists c. }
  split.
  - intros Hnd c Hc. rewrite count_write_to.
    now apply (proj1 (NoDup_count_occ' Nat.eq_dec (clients self)) Hnd).
  - now intros ->.
Qed.

Lemma broadcast_reaches_every_subscriber_witness :
  count (is_write_to 2%nat) (send_message (room_of 9 [1; 2; 3]%nat) ADD_GIFT JNull)
  = 1%nat.
Proof.
  refine (proj1 (proj2 (proj2 (proj2 (proj2
    (broadcast_reaches_every_subscriber (room_of 9 [1; 2; 3]%nat) ADD_GIFT JNull)))))
    _ 2%nat _).
  - cbn. repeat constructor; cbn; intuition discriminate.
  - cbn. auto.
Defined.

End RoomFacts.

(** ** The chat handler *)

Module HandlerFacts.
Import Rooms Handler Samples.

Section Conversion.
(** The interpreter's [int] on a [str]: every statement of this section
    holds whatever that conversion is. *)
Variable int_str : string -> result Z.

Lemma on_message_after_join (time : pyfloat) (self : ChatHandler)
    (rooms : gmap Z Room) (decoded : result json) (r : Z) :
  Handler.room_id self = Some r ->
  on_message int_str time self rooms decoded = unchanged self rooms (Ok tt).
Proof. intros H. unfold on_message. now rewrite H. Qed.



Lemma on_message_not_join (time : pyfloat) (self : ChatHandler)
    (rooms : gmap Z Room) (decoded : result json) :
  join_request int_str decoded = None ->
  exists res : result unit,
    on_message int_str time self rooms decoded = unchanged self rooms res.
Proof.
  unfold join_request, on_message. intros H.
  destruct (Handler.room_id self); [now eexists|].
  destruct decoded as [body|e]; [|now eexists].
  destruct (getitem body "cmd") as [cmd|e]; [|now eexists].
  destruct (eq_int cmd (value JOIN_ROOM)).
  - destruct (_ ← getitem body "data"; _) as [r|e]; [discriminate|now eexists].
  - destruct (getitem body "data"); now eexists.
Qed.

Lemma on_message_join (time : pyfloat) (self : ChatHandler)
    (rooms : gmap Z Room) (decoded : result json) (r : Z) :
  Handler.room_id self = None ->
  join_request int_str decoded = Some r ->
  on_message int_str time self rooms decoded
  = {| handler := set_room_id r self;
       room_manager := fst (add_client (debug self) time rooms r (self_handle self));
       effects := snd (add_client (debug self) time rooms r (self_handle self));
       outcome := Ok tt |}.
Proof.
  unfold join_request, on_message. intros Hnone H. rewrite Hnone.
  destruct decoded as [body|e]; [|discriminate].
  destruct (getitem body "cmd") as [cmd|e]; [|discriminate].
  destruct (eq_int cmd (value JOIN_ROOM)); [|discriminate].
  destruct (_ ← getitem body "data"; _) as [r'|e]; [|discriminate].
  injection H as ->. cbn [set_room_id debug self_handle].
  now destruct (add_client _ _ _ _ _).
Qed.



End Conversion.



End HandlerFacts.

(** ** More on the avatar resolver *)

Module AvatarMore.
Import Avatar Samples AvatarFacts.

Lemma resume_success (g : globals) (t user_id : Z) (reason : string)
    (data : json) (url : string) :
  face_of data = Ok (JStr url) ->
  dict_len (dict_set user_id (sized url) (_avatar_url_cache g)) <= 50000 ->
  get_avatar_url_resume g t user_id (Responded 200 reason (Ok data))
  = (set_cache (dict_set user_id (sized url) (_avatar_url_cache g)) g,
     Ok (sized url)).
Proof.
  unfold face_of. intros Hface Hlen. unfold get_avatar_url_resume.
  change (negb (200 =? 200)) with false. cbv iota. rewrite Hface.
  fold (sized url).
  now replace (50000 <? _) with false by (symmetry; apply Z.ltb_ge; lia).
Qed.



Lemma begin_keeps_cache (g : globals) (now user_id : Z) :
  _avatar_url_cache (fst (get_avatar_url_begin g now user_id))
  = _avatar_url_cache g.
Proof.
  unfold get_avatar_url_begin.
  destruct (dict_get user_id (_avatar_url_cache g)); [reflexivity|].
  destruct (now - _last_fetch_avatar_time g <? 200000).
  - now rewrite put_nowait_offered.
  - destruct (_last_avatar_failed_time g) as [failed|];
      [destruct (now - failed <? 183000000)|]; reflexivity.
Qed.

(** X2: the cache is written by nothing but a reply with status 200 whose
    [data.face] is a string: a lookup that sends no request, or whose
    request fails, is rejected or is answered with anything else, leaves
    the cache exactly as it was. *)
Theorem cache_changes_only_on_success (g : globals) (now user_id : Z)
    (r : http_outcome) :
  let c := get_avatar_url g now user_id r in
  _avatar_url_cache (after c) = _avatar_url_cache g
  \/ (fetched c = [user_id]
      /\ exists (reason : string) (data : json) (url : string),
           r = Responded 200 reason (Ok data) /\ face_of data = Ok (JStr url)).
Proof.
  cbv zeta. unfold get_avatar_url.
  pose proof (begin_keeps_cache g now user_id) as Hb.
  destruct (get_avatar_url_begin g now user_id) as [g1 [u|t]]; cbn [fst] in Hb.
  { now left. }
  unfold get_avatar_url_resume, face_of.
  destruct r as [e|status reason body].
  { left. now destruct (caught e). }
  destruct (Z.eqb_spec status 200) as [->|Hne]; cbn [negb]; [|now left].
  destruct body as [data|e]; [|left; now destruct (caught e)].
  destruct (_ ← getitem data "data"; _) as [[| | | |url| |]|e] eqn:Hface;
    try (now left).
  right. split.
  - now destruct (50000 <? _); [destruct (evict _ _ _) as [? [[]|?]]|].
  - now exists reason, data, url.
Qed.

Lemma begin_last_fetch (g : globals) (now user_id : Z) :
  match snd (get_avatar_url_begin g now user_id) with
  | Returned _ =>
      _last_fetch_avatar_time (fst (get_avatar_url_begin g now user_id))
      = _last_fetch_avatar_time g
  | Awaiting t =>
      t = now
      /\ _last_fetch_avatar_time (fst (get_avatar_url_begin g now user_id)) = now
      /\ 200000 <= now - _last_fetch_avatar_time g
  end.
Proof.
  unfold get_avatar_url_begin.
  destruct (dict_get user_id (_avatar_url_cache g)); [reflexivity|].
  destruct (Z.ltb_spec (now - _last_fetch_avatar_time g) 200000).
  - cbn [fst snd]. now rewrite put_nowait_offered.
  - destruct (_last_avatar_failed_time g) as [failed|];
      [destruct (now - failed <? 183000000)|]; cbn; auto.
Qed.

Lemma spaced_snoc (ts : list Z) :
  forall (last t : Z),
    spaced last ts -> 200000 <= t - latest last ts -> spaced last (ts ++ [t]).
Proof.
  induction ts as [|a ts IH]; intros last t Hs Ht; cbn in *; [auto|].
  destruct Hs as [Ha Hs]. split; [exact Ha|]. now apply IH.
Qed.

Lemma latest_snoc (ts : list Z) (last t : Z) : latest last (ts ++ [t]) = t.
Proof. unfold latest. now rewrite fold_left_app. Qed.

Lemma worker_keeps (g : globals) (now : Z) :
  let g' := fst (_fetch_avatar_loop g now) in
  _avatar_url_cache g' = _avatar_url_cache g
  /\ _last_fetch_avatar_time g' = _last_fetch_avatar_time g
  /\ _last_avatar_failed_time g' = _last_avatar_failed_time g
  /\ (length (_uids_to_fetch_avatar g') <= length (_uids_to_fetch_avatar g))%nat.
Proof.
  cbv zeta. unfold _fetch_avatar_loop.
  destruct (_uids_to_fetch_avatar g) as [|user_id q] eqn:Hq.
  - cbn [fst]. rewrite Hq. auto.
  - destruct (dict_contains _ _); cbn; auto.
Qed.

Lemma step_keeps_spacing (last0 : Z) (w : world) (e : event) :
  spacing last0 w -> spacing last0 (step w e).
Proof.
  intros [Hs Hl]. destruct e as [now user_id | k r | now]; cbn [step].
  - pose proof (begin_last_fetch (state w) now user_id) as Hb.
    destruct (get_avatar_url_begin (state w) now user_id) as [g [u|t]];
      cbn [fst snd] in Hb; unfold spacing; cbn [sent state].
    + now rewrite Hb.
    + destruct Hb as (-> & Hnow & Hgap). rewrite map_app. cbn [map fst].
      split; [apply spaced_snoc; [exact Hs | now rewrite Hl]|].
      now rewrite latest_snoc.
  - destruct (pending w !! k) as [p|]; [|now split].
    unfold spacing. cbn [sent state]. now rewrite resume_keeps_last_fetch.
  - unfold spacing. cbn [sent state].
    destruct (worker_keeps (state w) now) as (_ & -> & _). now split.
Qed.

Lemma play_keeps_spacing (last0 : Z) (es : list event) :
  forall w : world, spacing last0 w -> spacing last0 (play w es).
Proof.
  induction es as [|e es IH]; intros w H; [exact H|].
  cbn. apply IH. now apply step_keeps_spacing.
Qed.

(** X3: however lookups, replies and worker turns interleave, every
    request is sent at least 200 ms after the one before it, and the
    first at least 200 ms after the initial [_last_fetch_avatar_time]. *)
Theorem requests_are_spaced (g : globals) (es : list event) :
  spaced (_last_fetch_avatar_time g) (map fst (sent (play (world0 g) es))).
Proof.
  apply (play_keeps_spacing (_last_fetch_avatar_time g) es (world0 g)).
  now split.
Qed.

Lemma resume_keeps_queue (g : globals) (t user_id : Z) (r : http_outcome) :
  _uids_to_fetch_avatar (fst (get_avatar_url_resume g t user_id r))
  = _uids_to_fetch_avatar g.
Proof.
  unfold get_avatar_url_resume.
  destruct r as [e|status reason body]; [now destruct (caught e)|].
  destruct (negb (status =? 200)); [reflexivity|].
  destruct body as [data|e]; [|now destruct (caught e)].
  destruct (_ ← getitem data "data"; _) as [[| | | |url| |]|e]; try reflexivity.
  destruct (50000 <? _); [|reflexivity].
  now destruct (evict _ _ _) as [cache' [[]|e]].
Qed.

Lemma begin_queue_bound (g : globals) (now user_id : Z) :
  Z.of_nat (length (_uids_to_fetch_avatar g)) <= 15 ->
  Z.of_nat (length (_uids_to_fetch_avatar (fst (get_avatar_url_begin g now user_id))))
  <= 15.
Proof.
  intros H. unfold get_avatar_url_begin.
  destruct (dict_get user_id (_avatar_url_cache g)); [exact H|].
  destruct (now - _last_fetch_avatar_time g <? 200000).
  - rewrite put_nowait_offered. cbn [fst set_queue _uids_to_fetch_avatar].
    unfold offered.
    destruct (Z.ltb_spec (Z.of_nat (length (_uids_to_fetch_avatar g))) 15);
      [rewrite length_app; simpl; lia | exact H].
  - destruct (_last_avatar_failed_time g) as [failed|];
      [destruct (now - failed <? 183000000)|]; exact H.
Qed.

(** X4: however lookups, replies and worker turns interleave, a pending
    queue that holds at most 15 ids never holds more. *)
Theorem queue_bound_is_kept (es : list event) :
  forall w : world,
    Z.of_nat (length (_uids_to_fetch_avatar (state w))) <= 15 ->
    Z.of_nat (length (_uids_to_fetch_avatar (state (play w es)))) <= 15.
Proof.
  induction es as [|e es IH]; intros w H; [exact H|].
  cbn. apply IH. destruct e as [now user_id | k r | now]; cbn [step].
  - pose proof (begin_queue_bound (state w) now user_id H) as Hb.
    now destruct (get_avatar_url_begin (state w) now user_id) as [g [u|t]].
  - destruct (pending w !! k) as [p|]; [|exact H].
    cbn [state]. now rewrite resume_keeps_queue.
  - cbn [state]. destruct (worker_keeps (state w) now) as (_ & _ & _ & Hq). lia.
Qed.

Lemma queue_bound_is_kept_witness :
  Z.of_nat (length (_uids_to_fetch_avatar (state
     (play (world0 g0) [Lookup 1 7; Lookup 2 8; WorkerTurn 3; Lookup 500000 9;
                        Reply 0 rejected])))) <= 15.
Proof.
  apply (queue_bound_is_kept _ (world0 g0)). vm_compute. discriminate.
Defined.

(** X5: however lookups, replies and worker turns interleave, a cache
    that holds at most 50,000 users never holds more. *)
Theorem cache_bound_is_kept (es : list event) :
  forall w : world,
    dict_len (_avatar_url_cache (state w)) <= 50000 ->
    dict_len (_avatar_url_cache (state (play w es))) <= 50000.
Proof.
  induction es as [|e es IH]; intros w H; [exact H|].
  cbn. apply IH. destruct e as [now user_id | k r | now]; cbn [step].
  - pose proof (begin_keeps_cache (state w) now user_id) as Hb.
    destruct (get_avatar_url_begin (state w) now user_id) as [g [u|t]];
      cbn [fst] in Hb; cbn [state]; now rewrite Hb.
  - destruct (pending w !! k) as [p|]; [|exact H].
    cbn [state]. now apply resume_keeps_bound.
  - cbn [state]. destruct (worker_keeps (state w) now) as (-> & _). exact H.
Qed.

Lemma cache_bound_is_kept_witness :
  dict_len (_avatar_url_cache (state
     (play (world0 g_full) [Lookup 1000000 0; Reply 0 (ok_face "http://i/a.jpg")])))
  <= 50000.
Proof.
  apply (cache_bound_is_kept _ (world0 g_full)).
  change (dict_len full_cache <= 50000). rewrite full_cache_len. lia.
Defined.

Lemma throttled_call (g : globals) (now user_id : Z) (r : http_outcome) :
  dict_get user_id (_avatar_url_cache g) = None ->
  now - _last_fetch_avatar_time g < 200000 ->
  get_avatar_url g now user_id r
  = {| after := set_queue (offered user_id (_uids_to_fetch_avatar g)) g;
       fetched := [];
       returned := Ok DEFAULT_AVATAR_URL |}.
Proof.
  intros Hmiss Hthr. unfold get_avatar_url, get_avatar_url_begin. rewrite Hmiss.
  replace (now - _last_fetch_avatar_time g <? 200000) with true
    by (symmetry; apply Z.ltb_lt; lia).
  now rewrite put_nowait_offered.
Qed.

(** X6: a lookup deferred by the throttle is picked up again.  When a
    miss is throttled with the queue empty, the worker's next turn takes
    that user off the queue and sleeps long enough that the lookup it then
    schedules is not throttled: with no backoff running that lookup sends
    the request, and a good reply is returned and cached. *)
Theorem deferred_lookup_is_fetched (g : globals) (now now2 user_id : Z)
    (r1 : http_outcome) (reason : string) (data : json) (url : string) :
  dict_get user_id (_avatar_url_cache g) = None ->
  now - _last_fetch_avatar_time g < 200000 ->
  _uids_to_fetch_avatar g = [] ->
  _last_avatar_failed_time g = None ->
  dict_len (_avatar_url_cache g) < 50000 ->
  face_of data = Ok (JStr url) ->
  let c1 := get_avatar_url g now user_id r1 in
  returned c1 = Ok DEFAULT_AVATAR_URL
  /\ fetched c1 = []
  /\ exists slept : Z,
       _fetch_avatar_loop (after c1) now2 = (g, Spawned user_id slept)
       /\ let c3 := get_avatar_url g (now2 + slept) user_id
                      (Responded 200 reason (Ok data)) in
          fetched c3 = [user_id]
          /\ returned c3 = Ok (sized url)
          /\ dict_get user_id (_avatar_url_cache (after c3)) = Some (sized url).
Proof.
  intros Hmiss Hthr Hq Hf Hlen Hface. cbv zeta.
  rewrite (throttled_call g now user_id r1 Hmiss Hthr). cbn [after fetched returned]. split; [reflexivity|].
  split; [reflexivity|].
  rewrite Hq. change (offered user_id []) with [user_id].
  exists (sleep (400000 - (now2 - _last_fetch_avatar_time g))).
  split.
  - unfold _fetch_avatar_loop, dict_contains.
    cbn [set_queue _uids_to_fetch_avatar _avatar_url_cache _last_fetch_avatar_time].
    rewrite Hmiss. f_equal. destruct g; cbn in *. now subst.
  - assert (Hgap : 200000 <= now2 + sleep (400000 - (now2 - _last_fetch_avatar_time g))
                             - _last_fetch_avatar_time g) by (unfold sleep; lia).
    assert (Hc3 : get_avatar_url g (now2 + sleep (400000 - (now2 - _last_fetch_avatar_time g)))
                    user_id (Responded 200 reason (Ok data))
                  = {| after := set_cache (dict_set user_id (sized url) (_avatar_url_cache g))
                         (set_last_fetch
                            (now2 + sleep (400000 - (now2 - _last_fetch_avatar_time g)))
                            (set_failed None g));
                       fetched := [user_id];
                       returned := Ok (sized url) |}).
    { unfold get_avatar_url.
      rewrite begin_miss_fetches by (auto; now rewrite Hf).
      rewrite (resume_success _ _ user_id reason data url Hface); [reflexivity|].
      cbn [_avatar_url_cache set_last_fetch set_failed].
      pose proof (dict_len_set user_id (sized url) (_avatar_url_cache g)). lia. }
    rewrite Hc3. cbn [after fetched returned set_cache _avatar_url_cache].
    now rewrite dict_get_set_same.
Qed.

Lemma deferred_lookup_is_fetched_witness :
  exists slept : Z,
    _fetch_avatar_loop (after (get_avatar_url g0 100000 7 rejected)) 150000
    = (g0, Spawned 7 slept)
    /\ let c3 := get_avatar_url g0 (150000 + slept) 7
                   (Responded 200 "OK"
                      (Ok (JObj [("data", JObj [("face", JStr "http://i/a.jpg")])]))) in
       fetched c3 = [7]
       /\ returned c3 = Ok (sized "http://i/a.jpg")
       /\ dict_get 7 (_avatar_url_cache (after c3)) = Some (sized "http://i/a.jpg").
Proof.
  refine (proj2 (proj2 (deferred_lookup_is_fetched g0 100000 150000 7 rejected "OK"
    (JObj [("data", JObj [("face", JStr "http://i/a.jpg")])]) "http://i/a.jpg"
    _ _ _ _ _ _))); try reflexivity; vm_compute; reflexivity.
Defined.

Lemma turns_drain (nows : list Z) :
  forall g : globals,
    length nows = length (_uids_to_fetch_avatar g) ->
    map taken (fst (turns g nows)) = map Some (_uids_to_fetch_avatar g)
    /\ snd (turns g nows) = set_queue [] g.
Proof.
  induction nows as [|now nows IH]; intros g Hlen.
  - destruct g as [c l f q]; cbn in *. destruct q; [now split|discriminate].
  - cbn [turns]. unfold _fetch_avatar_loop.
    destruct (_uids_to_fetch_avatar g) as [|user_id q] eqn:Hq; [discriminate|].
    injection Hlen as Hlen.
    specialize (IH (set_queue q g)). cbn [set_queue _uids_to_fetch_avatar] in IH.
    specialize (IH Hlen). destruct IH as [IH1 IH2].
    destruct (dict_contains user_id (_avatar_url_cache (set_queue q g)));
      destruct (turns (set_queue q g) nows) as [ss g2]; cbn [fst snd] in *;
      cbn [map taken]; rewrite IH1, IH2; now split.
Qed.

(** X7: the worker drains the queue first in, first out.  Given as many
    turns as there are queued ids, it takes the ids off in the order they
    were queued, one a turn, leaves the queue empty and changes nothing
    else; the turn after that finds nothing and waits. *)
Theorem worker_drains_in_order (g : globals) (nows : list Z) (now : Z) :
  length nows = length (_uids_to_fetch_avatar g) ->
  map taken (fst (turns g nows)) = map Some (_uids_to_fetch_avatar g)
  /\ snd (turns g nows) = set_queue [] g
  /\ _fetch_avatar_loop (snd (turns g nows)) now = (set_queue [] g, Blocked).
Proof.
  intros Hlen. destruct (turns_drain nows g Hlen) as [H1 H2].
  split; [exact H1|]. split; [exact H2|]. now rewrite H2.
Qed.

Lemma worker_drains_in_order_witness :
  map taken (fst (turns (set_queue [7; 8; 9] g0) [1; 2; 3]))
  = [Some 7; Some 8; Some 9].
Proof.
  refine (proj1 (worker_drains_in_order (set_queue [7; 8; 9] g0) [1; 2; 3] 4 _)).
  reflexivity.
Defined.

Lemma resume_failed_time (g : globals) (t user_id : Z) (r : http_outcome) :
  _last_avatar_failed_time (fst (get_avatar_url_resume g t user_id r))
  = _last_avatar_failed_time g
  \/ _last_avatar_failed_time (fst (get_avatar_url_resume g t user_id r)) = Some t.
Proof.
  unfold get_avatar_url_resume.
  destruct r as [e|status reason body]; [left; now destruct (caught e)|].
  destruct (negb (status =? 200)); [now right|]. left.
  destruct body as [data|e]; [|now destruct (caught e)].
  destruct (_ ← getitem data "data"; _) as [[| | | |url| |]|e]; try reflexivity.
  destruct (50000 <? _); [|reflexivity].
  now destruct (evict _ _ _) as [cache' [[]|e]].
Qed.

Lemma begin_in_backoff (g : globals) (failed now user_id : Z) :
  _last_avatar_failed_time g = Some failed ->
  now - failed < 183000000 ->
  exists g' : globals,
    get_avatar_url_begin g now user_id
    = (g', Returned (offline (_avatar_url_cache g) user_id))
    /\ _last_avatar_failed_time g' = Some failed.
Proof.
  intros Hf Hw. unfold get_avatar_url_begin, offline.
  destruct (dict_get user_id (_avatar_url_cache g)) as [url|]; [now exists g|].
  destruct (now - _last_fetch_avatar_time g <? 200000).
  - rewrite put_nowait_offered. eexists. split; [reflexivity|exact Hf].
  - rewrite Hf.
    replace (now - failed <? 183000000) with true
      by (symmetry; apply Z.ltb_lt; lia).
    now exists g.
Qed.

Lemma in_delete (k : nat) (ps : list inflight) :
  forall (i : nat) (p : inflight), In p (delete i ps) -> In p ps.
Proof.
  induction ps as [|q ps IH]; intros i p H; [destruct i; exact H|].
  destruct i as [|i]; cbn in H; [now right|].
  destruct H as [->|H]; [now left | right; now apply (IH i)].
Qed.

Lemma held_time_in_window (t0 : Z) (ps : list inflight) (w : world) (now : Z) :
  holding t0 ps w -> within t0 ps now ->
  exists tf : Z,
    _last_avatar_failed_time (state w) = Some tf /\ now - tf < 183000000.
Proof.
  intros ((tf & Hf & Htf) & _ & _) [H0 Hps]. exists tf. split; [exact Hf|].
  destruct Htf as [->|(p & Hp & <-)]; [exact H0 | now apply Hps].
Qed.

Lemma step_keeps_holding (t0 : Z) (ps : list inflight) (w : world) (e : event) :
  holding t0 ps w -> quiet t0 ps e -> holding t0 ps (step w e).
Proof.
  intros Hw Hq. pose proof Hw as ((tf & Hf & Htf) & Hpend & Hsent).
  destruct e as [now user_id | k r | now]; cbn [step quiet] in *.
  - destruct (held_time_in_window t0 ps w now Hw Hq) as (tf' & Hf' & Hwin).
    destruct (begin_in_backoff (state w) tf' now user_id Hf' Hwin) as (g' & -> & Hg').
    split; [|split]; cbn [state pending sent]; auto.
    exists tf. split; [congruence | exact Htf].
  - destruct (pending w !! k) as [p|] eqn:Hk; [|exact Hw].
    assert (Hp : In p ps).
    { apply Hpend. apply list_elem_of_In. now apply (list_elem_of_lookup_2 _ k). }
    split; [|split]; cbn [state pending sent]; auto.
    + destruct (resume_failed_time (state w) (started p) (waiting_user p) r)
        as [Hsame | Hnew].
      * exists tf. split; [congruence | exact Htf].
      * exists (started p). split; [exact Hnew|]. right. now exists p.
    + intros q Hq'. apply Hpend. now apply (in_delete k _ k).
  - split; [|split]; cbn [state pending sent]; auto.
    destruct (worker_keeps (state w) now) as (_ & _ & Hkeep & _).
    exists tf. split; [congruence | exact Htf].
Qed.

Lemma play_keeps_holding (t0 : Z) (ps : list inflight) (es : list event) :
  forall w : world,
    holding t0 ps w -> Forall (quiet t0 ps) es -> holding t0 ps (play w es).
Proof.
  induction es as [|e es IH]; intros w Hw Hes; [exact Hw|].
  inversion Hes as [|? ? He Hes']; subst. cbn. apply IH; [|exact Hes'].
  now apply step_keeps_holding.
Qed.

(** C4 (amended): a reply with a non-success status makes the call return
    the default placeholder and records the time that call read the clock
    as the failure time.  From then on, whatever replies to the requests
    still in flight arrive and whatever turns the worker takes in between,
    every lookup made less than 183 seconds after that time, and less than
    183 seconds after the start of every request that was in flight, sends
    no request: it returns the default placeholder for a user id that is
    not cached and the cached URL for one that is.  A lookup for an
    uncached id made 183 seconds or more after the failure time (and 200
    ms or more after the last attempt) sends a request again.  A
    connection failure returns the default placeholder and leaves the
    state as it is. *)
Theorem rejected_fetch_backs_off (g : globals) (t0 user0 status : Z)
    (reason : string) (body : result json) :
  status <> 200 ->
  let g1 := fst (get_avatar_url_resume g t0 user0 (Responded status reason body)) in
  snd (get_avatar_url_resume g t0 user0 (Responded status reason body))
  = Ok DEFAULT_AVATAR_URL
  /\ g1 = set_failed (Some t0) g
  /\ (forall (ps : list inflight) (es : list event) (now user_id : Z)
        (r : http_outcome),
        Forall (quiet t0 ps) es ->
        within t0 ps now ->
        let w := play {| state := g1; pending := ps; sent := [] |} es in
        sent w = []
        /\ fetched (get_avatar_url (state w) now user_id r) = []
        /\ returned (get_avatar_url (state w) now user_id r)
           = Ok (offline (_avatar_url_cache (state w)) user_id)
        /\ (dict_get user_id (_avatar_url_cache (state w)) = None ->
            returned (get_avatar_url (state w) now user_id r)
            = Ok DEFAULT_AVATAR_URL))
  /\ (forall (now user_id : Z) (r : http_outcome),
        183000000 <= now - t0 ->
        200000 <= now - _last_fetch_avatar_time g ->
        dict_get user_id (_avatar_url_cache g) = None ->
        fetched (get_avatar_url g1 now user_id r) = [user_id])
  /\ (forall (g' : globals) (t user_id : Z),
        get_avatar_url_resume g' t user_id (GetRaised ClientConnectionError)
        = (g', Ok DEFAULT_AVATAR_URL)).
Proof.
  intros Hst.
  assert (Hres : get_avatar_url_resume g t0 user0 (Responded status reason body)
                 = (set_failed (Some t0) g, Ok DEFAULT_AVATAR_URL)).
  { unfold get_avatar_url_resume.
    now replace (status =? 200) with false by (symmetry; apply Z.eqb_neq; lia). }
  rewrite Hres. cbn [fst snd].
  split; [reflexivity|]. split; [reflexivity|]. split; [|split].
  - intros ps es now user_id r Hes Hnow. cbv zeta.
    assert (Hw : holding t0 ps
                   (play {| state := set_failed (Some t0) g; pending := ps; sent := [] |} es)).
    { apply play_keeps_holding; [|exact Hes].
      split; [|split]; cbn [state pending sent]; auto.
      exists t0. split; [reflexivity | now left]. }
    destruct (held_time_in_window t0 ps _ now Hw Hnow) as (tf & Hf & Hwin).
    destruct (call_in_backoff _ tf now user_id r Hf Hwin) as (H1 & H2 & _).
    split; [apply Hw|]. split; [exact H1|]. split; [exact H2|].
    intros Hmiss. rewrite H2. unfold offline. now rewrite Hmiss.
  - intros now user_id r Hexp Hgap Hmiss. unfold get_avatar_url.
    rewrite begin_miss_fetches by (simpl; auto; lia).
    destruct (get_avatar_url_resume (set_last_fetch _ _) _ _ _) as [g2 res].
    reflexivity.
  - reflexivity.
Qed.

Lemma rejected_fetch_backs_off_witness :
  sent (play {| state := fst (get_avatar_url_resume g0 1000000 7 rejected);
                pending := [{| waiting_user := 5; started := 900000 |}];
                sent := [] |}
             [Reply 0 rejected; Lookup 2000000 8; WorkerTurn 2500000])
  = []
  /\ fetched (get_avatar_url
       (state (play {| state := fst (get_avatar_url_resume g0 1000000 7 rejected);
                       pending := [{| waiting_user := 5; started := 900000 |}];
                       sent := [] |}
                    [Reply 0 rejected; Lookup 2000000 8; WorkerTurn 2500000]))
       3000000 9 (ok_face "x")) = [].
Proof.
  assert (Hq : within 1000000 [{| waiting_user := 5; started := 900000 |}] 2000000).
  { split; [lia|]. intros p [<-|[]]. cbn. lia. }
  assert (Hn : within 1000000 [{| waiting_user := 5; started := 900000 |}] 3000000).
  { split; [lia|]. intros p [<-|[]]. cbn. lia. }
  assert (Hes : Forall (quiet 1000000 [{| waiting_user := 5; started := 900000 |}])
                  [Reply 0 rejected; Lookup 2000000 8; WorkerTurn 2500000]).
  { constructor; [exact I|]. constructor; [exact Hq|].
    constructor; [exact I|]. constructor. }
  destruct (proj1 (proj2 (proj2
    (rejected_fetch_backs_off g0 1000000 7 412 "Precondition Failed"
       (Raise ContentTypeError) ltac:(discriminate))))
    [{| waiting_user := 5; started := 900000 |}]
    [Reply 0 rejected; Lookup 2000000 8; WorkerTurn 2500000]
    3000000 9 (ok_face "x") Hes Hn) as (H1 & H2 & _).
  split; [exact H1 | exact H2].
Defined.

(** An older request whose rejection lands later moves the failure time
    back to its own start: the window then ends 183 s after that start,
    and a lookup 85 s after the later rejected call is sent. *)
Example older_rejection_moves_the_window :
  let w := play (world0 g0)
             [Lookup 1000000 1; Lookup 100000000 2; Reply 1 rejected;
              Reply 0 rejected; Lookup 185000000 3] in
  _last_avatar_failed_time (state w) = None
  /\ map fst (sent w) = [1000000; 100000000; 185000000].
Proof. split; reflexivity. Qed.

End AvatarMore.

(** ** More on rooms and the room manager *)

Module RoomMore.
Import Avatar Rooms Relay Samples AvatarFacts AvatarMore RoomFacts.

(** X8: a gift is broadcast only when its coin type is exactly [gold]: any
    other gift has no effect at all, a gold one is written once to every
    subscriber as ADD_GIFT, with the avatar URL taken from the event
    itself. *)
Theorem only_gold_gifts_are_broadcast (self : Room) (gift : GiftMessage) :
  (coin_type gift <> "gold" -> _on_receive_gift self gift = [])
  /\ (coin_type gift = "gold" ->
      exists data : json,
        _on_receive_gift self gift
        = map (fun client =>
                 Write client (json_dumps (JObj [("cmd", JInt 2); ("data", data)])))
              (clients self)
        /\ getitem data "avatarUrl" = Ok (JStr (face gift))
        /\ getitem data "giftName" = Ok (JStr (gift_name gift))
        /\ getitem data "giftNum" = Ok (JInt (num gift))
        /\ getitem data "totalCoin" = Ok (JInt (total_coin gift))).
Proof.
  unfold _on_receive_gift. split; intros H.
  - now replace (String.eqb (coin_type gift) "gold") with false
      by (symmetry; now apply String.eqb_neq).
  - rewrite H. cbn [String.eqb Ascii.eqb Bool.eqb negb].
    eexists. split; [reflexivity|]. repeat split; reflexivity.
Qed.

Lemma only_gold_gifts_are_broadcast_witness :
  _on_receive_gift (room_of 9 [1; 2]%nat) (gift "silver") = []
  /\ length (_on_receive_gift (room_of 9 [1; 2]%nat) (gift "gold")) = 2%nat.
Proof.
  split.
  - apply (proj1 (only_gold_gifts_are_broadcast (room_of 9 [1; 2]%nat) (gift "silver"))).
    discriminate.
  - destruct (proj2 (only_gold_gifts_are_broadcast (room_of 9 [1; 2]%nat) (gift "gold"))
                eq_refl) as (data & -> & _).
    reflexivity.
Defined.

(** X9: a chat event whose avatar lookup is deferred or refused is still
    broadcast, with the default placeholder: on a throttled miss, and on a
    miss while the backoff is running. *)
Theorem degraded_lookup_still_broadcasts (g : globals) (now : Z) (self : Room)
    (danmaku : DanmakuMessage) (r : http_outcome) :
  dict_get (uid danmaku) (_avatar_url_cache g) = None ->
  (now - _last_fetch_avatar_time g < 200000
   \/ exists failed : Z,
        _last_avatar_failed_time g = Some failed /\ now - failed < 183000000) ->
  snd (text_event g now self danmaku r)
  = Ok (send_message self ADD_TEXT (text_payload self danmaku DEFAULT_AVATAR_URL))
  /\ fetched (get_avatar_url g now (uid danmaku) r) = [].
Proof.
  intros Hmiss Hwhy. unfold text_event. cbn [snd].
  assert (Hc : returned (get_avatar_url g now (uid danmaku) r) = Ok DEFAULT_AVATAR_URL
               /\ fetched (get_avatar_url g now (uid danmaku) r) = []).
  { destruct Hwhy as [Hthr | (failed & Hf & Hwin)].
    - now rewrite (throttled_call g now (uid danmaku) r Hmiss Hthr).
    - destruct (call_in_backoff g failed now (uid danmaku) r Hf Hwin)
        as (H1 & H2 & _).
      split; [|exact H1]. rewrite H2. unfold offline. now rewrite Hmiss. }
  destruct Hc as [-> ->]. now split.
Qed.

Lemma degraded_lookup_still_broadcasts_witness :
  snd (text_event g0 100000 (room_of 9 [1; 2]%nat) (chat 5 0 0) rejected)
  = Ok (send_message (room_of 9 [1; 2]%nat) ADD_TEXT
          (text_payload (room_of 9 [1; 2]%nat) (chat 5 0 0) DEFAULT_AVATAR_URL)).
Proof.
  refine (proj1 (degraded_lookup_still_broadcasts g0 100000 (room_of 9 [1; 2]%nat)
                   (chat 5 0 0) rejected _ _)).
  - reflexivity.
  - left. vm_compute. reflexivity.
Defined.



Lemma list_remove_absent (c : handle) (cs : list handle) :
  ~ In c cs -> list_remove c cs = None.
Proof.
  induction cs as [|c' cs IH]; intros H; [reflexivity|]. cbn.
  destruct (Nat.eqb_spec c c') as [->|Hne]; [exfalso; apply H; now left|].
  rewrite IH; [reflexivity|]. intros Hin. apply H. now right.
Qed.

Lemma list_remove_middle (c : handle) (pre post : list handle) :
  ~ In c pre -> list_remove c (pre ++ c :: post) = Some (pre ++ post).
Proof.
  induction pre as [|c' pre IH]; intros H; cbn.
  - now rewrite Nat.eqb_refl.
  - destruct (Nat.eqb_spec c c') as [->|Hne]; [exfalso; apply H; now left|].
    rewrite IH; [reflexivity|]. intros Hin. apply H. now right.
Qed.

(** X11: removing a subscriber that the room does not have raises
    ValueError and leaves the directory as it was, with nothing stopped or
    closed. *)
Theorem leave_of_a_stranger_raises (rooms : gmap Z Room) (r : Z) (c : handle)
    (room : Room) :
  rooms !! r = Some room ->
  ~ In c (clients room) ->
  del_client rooms r c = (rooms, [], Raise ValueError).
Proof.
  intros Hr Hc. unfold del_client. rewrite Hr.
  now rewrite (list_remove_absent c (clients room) Hc).
Qed.

Lemma leave_of_a_stranger_raises_witness :
  del_client (<[12345 := joined [1%nat]]> ∅) 12345 2%nat
  = (<[12345 := joined [1%nat]]> ∅, [], Raise ValueError).
Proof.
  apply (leave_of_a_stranger_raises _ 12345 2%nat (joined [1%nat])).
  - reflexivity.
  - cbn. intuition discriminate.
Defined.

(** X12: removing a subscriber that is not the last one takes its first
    occurrence out of the list, keeps the others in their order, and
    neither stops nor closes nor unfiles the room. *)
Theorem leave_keeps_the_others (rooms : gmap Z Room) (r : Z) (c : handle)
    (room : Room) (pre post : list handle) :
  rooms !! r = Some room ->
  clients room = pre ++ c :: post ->
  ~ In c pre ->
  pre ++ post <> [] ->
  del_client rooms r c
  = (<[r := set_clients (pre ++ post) room]> rooms, [], Ok tt).
Proof.
  intros Hr Hcs Hpre Hne. unfold del_client. rewrite Hr, Hcs.
  rewrite (list_remove_middle c pre post Hpre).
  destruct (pre ++ post) as [|x xs] eqn:E; [congruence|reflexivity].
Qed.

Lemma leave_keeps_the_others_witness :
  del_client (<[12345 := joined [1; 2; 3]%nat]> ∅) 12345 2%nat
  = (<[12345 := set_clients ([1%nat] ++ [3%nat]) (joined [1; 2; 3]%nat)]>
       (<[12345 := joined [1; 2; 3]%nat]> ∅), [], Ok tt).
Proof.
  apply (leave_keeps_the_others _ 12345 2%nat (joined [1; 2; 3]%nat) [1%nat] [3%nat]).
  - reflexivity.
  - reflexivity.
  - cbn. intuition discriminate.
  - discriminate.
Defined.

(** X13: a join followed by the leave of the same subscriber gives the
    directory back.  For a room id that was not filed, the room is started
    by the join and stopped, closed and unfiled by the leave; for a room
    that had other subscribers, the leave does nothing to the upstream
    client and the room is as before. *)
Theorem join_then_leave (debug : bool) (time : pyfloat) (rooms : gmap Z Room)
    (r : Z) (c : handle) :
  (rooms !! r = None ->
   del_client (fst (add_client debug time rooms r c)) r c
   = (rooms, [Stop r; Close r], Ok tt))
  /\ (forall room : Room,
        rooms !! r = Some room ->
        clients room <> [] ->
        ~ In c (clients room) ->
        del_client (fst (add_client debug time rooms r c)) r c
        = (rooms, [], Ok tt)).
Proof.
  split.
  - intros Hr.
    destruct (add_client_new debug time rooms r c Hr) as (ws & -> & _).
    cbn [fst]. unfold del_client. rewrite lookup_insert_eq.
    cbn [clients]. rewrite list_remove_only. unfold stop_and_close. cbn.
    now rewrite delete_insert_id.
  - intros room Hr Hne Hc.
    destruct (add_client_known debug time rooms r c room Hr) as (ws & -> & _).
    cbn [fst]. unfold del_client. rewrite lookup_insert_eq.
    cbn [clients set_clients].
    replace (clients room ++ [c]) with (clients room ++ c :: [])
      by reflexivity.
    rewrite (list_remove_middle c (clients room) [] Hc), app_nil_r.
    destruct (clients room) as [|x xs] eqn:E; [congruence|].
    rewrite insert_insert_eq. rewrite <- E.
    replace (set_clients (clients room) (set_clients (clients room ++ [c]) room))
      with room by now destruct room.
    now rewrite insert_id.
Qed.

Lemma join_then_leave_witness :
  del_client (fst (add_client false (Finite 0 0) ∅ 12345 1%nat)) 12345 1%nat
  = (∅, [Stop 12345; Close 12345], Ok tt).
Proof.
  apply (proj1 (join_then_leave false (Finite 0 0) ∅ 12345 1%nat)).
  reflexivity.
Defined.

Lemma count_test_messages (c : handle) (room : Room) (time : pyfloat) :
  count (is_write_to c) (__send_test_message room time)
  = (7 * count_occ Nat.eq_dec (clients room) c)%nat.
Proof.
  unfold __send_test_message. cbv zeta. rewrite !count_app.
  unfold send_message. rewrite !count_write_to. lia.
Qed.

(** X14: in debug mode a join pushes the seven sample messages to every
    subscriber the room then has, the ones that were there before
    included: each subscriber is written to seven times per occurrence in
    the list.  Out of debug mode a join writes to nobody. *)
Theorem debug_join_writes_to_all (time : pyfloat) (rooms : gmap Z Room)
    (r : Z) (c c' : handle) :
  count (is_write_to c') (snd (add_client true time rooms r c))
  = (7 * count_occ Nat.eq_dec
           (subscribers (fst (add_client true time rooms r c)) r) c')%nat
  /\ count (is_write_to c') (snd (add_client false time rooms r c)) = 0%nat.
Proof.
  unfold add_client, subscribers.
  destruct (rooms !! r) as [room|]; unfold start, Room_init;
    cbv beta iota zeta; cbn [fst snd]; rewrite lookup_insert_eq;
    rewrite !count_app, count_test_messages; cbn; split; lia.
Qed.

End RoomMore.

(** ** The server's connections and rooms *)

Module ServerFacts.
Import Rooms Handler Relay Samples RoomFacts HandlerFacts.

Lemma list_remove_present (c : handle) (cs : list handle) :
  In c cs -> exists cs', list_remove c cs = Some cs'.
Proof.
  induction cs as [|c' cs IH]; intros H; [destruct H|]. cbn.
  destruct (Nat.eqb_spec c c') as [->|Hne]; [now eexists|].
  destruct H as [->|H]; [congruence|].
  destruct (IH H) as [cs' ->]. now eexists.
Qed.

Lemma list_remove_rest (c : handle) (cs : list handle) :
  forall cs' : list handle,
    List.NoDup cs ->
    list_remove c cs = Some cs' ->
    List.NoDup cs' /\ forall x, In x cs' <-> In x cs /\ x <> c.
Proof.
  induction cs as [|c' cs IH]; intros cs' Hnd Hrm; [discriminate|].
  inversion Hnd as [|? ? Hnotin Hnd']; subst. cbn in Hrm.
  destruct (Nat.eqb_spec c c') as [->|Hne].
  - injection Hrm as <-. split; [exact Hnd'|].
    intros x. cbn. split.
    + intros Hx. split; [now right|]. intros ->. contradiction.
    + intros [[->|Hx] Hxc]; [congruence|exact Hx].
  - destruct (list_remove c cs) as [cs''|] eqn:E; [|discriminate].
    injection Hrm as <-. destruct (IH cs'' Hnd' eq_refl) as [Hnd'' Hin].
    split.
    + constructor; [|exact Hnd'']. intros Hc'. apply Hin in Hc'. tauto.
    + intros x. cbn. rewrite Hin. split.
      * intros [->|[Hx Hxc]]; split; auto.
      * intros [[->|Hx] Hxc]; auto.
Qed.

Lemma add_client_directory (debug : bool) (time : pyfloat)
    (rooms : gmap Z Room) (r : Z) (c : handle) :
  exists room' : Room,
    fst (add_client debug time rooms r c) = <[r := room']> rooms
    /\ clients room' = subscribers rooms r ++ [c].
Proof.
  unfold subscribers. destruct (rooms !! r) as [room|] eqn:Hr.
  - destruct (add_client_known debug time rooms r c room Hr) as (ws & -> & _).
    now eexists.
  - destruct (add_client_new debug time rooms r c Hr) as (ws & -> & _).
    now eexists.
Qed.

Section Conversion.
(** The interpreter's [int] on a [str]: every statement of this section
    holds whatever that conversion is. *)
Variable int_str : string -> result Z.

Lemma registered_connect (s : server) (h : handle) :
  registered s -> registered (fst (fst (serve int_str s (Connect h)))).
Proof.
  intros (Ha & Hb & Hc). cbn [serve].
  destruct (connections s !! h) as [self|] eqn:Hh; cbn [fst];
    [exact (conj Ha (conj Hb Hc))|].
  split; [|split]; cbn [connections directory debug_mode].
  - intros h' self'. rewrite lookup_insert. case_decide as E.
    + subst h'. intros [= <-]. now split.
    + apply Ha.
  - intros r room Hr. destruct (Hb r room Hr) as [Hnd Hin].
    split; [exact Hnd|]. intros c Hcin.
    destruct (Hin c Hcin) as (self' & Hself' & Hroom).
    exists self'. split; [|exact Hroom].
    rewrite lookup_insert_ne; [exact Hself'|]. congruence.
  - intros h' self' r. rewrite lookup_insert. case_decide as E.
    + subst h'. intros [= <-]. discriminate.
    + apply Hc.
Qed.

Lemma registered_message (s : server) (h : handle) (time : pyfloat)
    (decoded : result json) :
  registered s -> registered (fst (fst (serve int_str s (Message h time decoded)))).
Proof.
  intros Hreg. pose proof Hreg as (Ha & Hb & Hc). cbn [serve].
  destruct (connections s !! h) as [self|] eqn:Hh; cbn [fst]; [|exact Hreg].
  destruct (Ha h self Hh) as [Hid Hdbg].
  assert (Hsame : forall res,
             on_message int_str time self (directory s) decoded
             = unchanged self (directory s) res ->
             registered
               {| debug_mode := debug_mode s;
                  connections :=
                    <[h := handler (on_message int_str time self (directory s) decoded)]>
                      (connections s);
                  directory := room_manager (on_message int_str time self (directory s) decoded) |}).
  { intros res ->. cbn [unchanged handler room_manager].
    rewrite insert_id by exact Hh. now destruct s. }
  destruct (Handler.room_id self) as [r0|] eqn:Hroom.
  { apply (Hsame (Ok tt)). now apply (on_message_after_join int_str _ _ _ _ r0). }
  destruct (join_request int_str decoded) as [r|] eqn:Hj.
  2:{ destruct (on_message_not_join int_str time self (directory s) decoded Hj) as [res Hres].
      now apply (Hsame res). }
  clear Hsame.
  rewrite (on_message_join int_str time self (directory s) decoded r Hroom Hj).
  cbn [handler room_manager].
  destruct (add_client_directory (debug self) time (directory s) r (self_handle self))
    as (room' & -> & Hcs).
  rewrite Hid in Hcs.
  assert (Hnotin : ~ In h (subscribers (directory s) r)).
  { unfold subscribers. destruct (directory s !! r) as [room|] eqn:Hr; [|tauto].
    intros Hin. destruct (Hb r room Hr) as [_ Hmem].
    destruct (Hmem h Hin) as (self' & Hs' & Hr'). congruence. }
  assert (Hnd : List.NoDup (subscribers (directory s) r)).
  { unfold subscribers. destruct (directory s !! r) as [room|] eqn:Hr;
      [apply (Hb r room Hr) | constructor]. }
  split; [|split]; cbn [connections directory debug_mode].
  - intros h' self'. rewrite lookup_insert. case_decide as E; [|apply Ha].
    subst h'. intros [= <-]. now split.
  - intros r' room''. rewrite lookup_insert. case_decide as E.
    + subst r'. intros [= <-]. rewrite Hcs. split.
      * apply List.NoDup_app; [exact Hnd | repeat constructor; tauto |].
        intros a Hain [<-|[]]. contradiction.
      * intros c Hcin. apply in_app_iff in Hcin as [Hold | [<-|[]]].
        -- unfold subscribers in Hold.
           destruct (directory s !! r) as [room|] eqn:Hr; [|destruct Hold].
           destruct (Hb r room Hr) as [_ Hmem].
           destruct (Hmem c Hold) as (self' & Hs' & Hr').
           exists self'. split; [|exact Hr'].
           rewrite lookup_insert_ne; [exact Hs'|]. intros ->. congruence.
        -- exists (set_room_id r self). split; [apply lookup_insert_eq | reflexivity].
    + intros Hr'. destruct (Hb r' room'' Hr') as [Hnd' Hmem].
      split; [exact Hnd'|]. intros c Hcin.
      destruct (Hmem c Hcin) as (self' & Hs' & Hroom').
      exists self'. split; [|exact Hroom'].
      rewrite lookup_insert_ne; [exact Hs'|]. intros ->. congruence.
  - intros h' self' r''. rewrite lookup_insert. case_decide as E.
    + subst h'. intros [= <-]. cbn [set_room_id Handler.room_id]. intros [= <-].
      exists room'. split; [apply lookup_insert_eq|].
      rewrite Hcs. apply in_app_iff. right. now left.
    + intros Hs' Hr''. destruct (Hc h' self' r'' Hs' Hr'') as (room'' & Hd & Hin).
      rewrite lookup_insert. case_decide as E2.
      * subst r''. exists room'. split; [reflexivity|].
        rewrite Hcs. apply in_app_iff. left. unfold subscribers. now rewrite Hd.
      * exists room''. now split.
Qed.

Lemma registered_disconnect (s : server) (h : handle) :
  registered s ->
  registered (fst (fst (serve int_str s (Disconnect h))))
  /\ snd (serve int_str s (Disconnect h)) = Ok tt.
Proof.
  intros Hreg. pose proof Hreg as (Ha & Hb & Hc). cbn [serve].
  destruct (connections s !! h) as [self|] eqn:Hh; cbn [fst snd];
    [|now split].
  destruct (Ha h self Hh) as [Hid _]. unfold on_close.
  destruct (Handler.room_id self) as [r|] eqn:Hroom.
  2:{ cbn [unchanged handler room_manager effects outcome].
      split; [|reflexivity].
      split; [|split]; cbn [connections directory debug_mode].
      - intros h' self'. rewrite lookup_delete.
        case_decide; [discriminate | apply Ha].
      - intros r room Hr. destruct (Hb r room Hr) as [Hnd Hmem].
        split; [exact Hnd|]. intros c Hcin.
        destruct (Hmem c Hcin) as (self' & Hs' & Hr').
        exists self'. split; [|exact Hr'].
        rewrite lookup_delete_ne; [exact Hs'|]. intros ->. congruence.
      - intros h' self' r. rewrite lookup_delete.
        case_decide; [discriminate | apply Hc]. }
  destruct (Hc h self r Hh Hroom) as (room & Hr & Hin). rewrite Hid.
  unfold del_client. rewrite Hr.
  destruct (list_remove_present h (clients room) Hin) as [cs' Hrm]. rewrite Hrm.
  destruct (Hb r room Hr) as [Hnd Hmem].
  destruct (list_remove_rest h (clients room) cs' Hnd Hrm) as [Hnd' Hin'].
  assert (Hothers : forall r' room' c,
             r <> r' -> directory s !! r' = Some room' -> In c (clients room') ->
             exists self', delete h (connections s) !! c = Some self'
                           /\ Handler.room_id self' = Some r').
  { intros r' room' c Hne Hr' Hcin. destruct (Hb r' room' Hr') as [_ Hmem'].
    destruct (Hmem' c Hcin) as (self' & Hs' & Hroom').
    exists self'. split; [|exact Hroom'].
    rewrite lookup_delete_ne; [exact Hs'|]. intros ->. congruence. }
  destruct cs' as [|x xs]; cbn [fst snd handler room_manager effects outcome];
    (split; [|reflexivity]);
    (split; [|split]); cbn [connections directory debug_mode].
  - intros h' self'. rewrite lookup_delete.
    case_decide; [discriminate | apply Ha].
  - intros r' room'. rewrite lookup_delete. case_decide as E; [discriminate|].
    intros Hr'. split; [apply (Hb r' room' Hr')|].
    intros c Hcin. now apply (Hothers r' room' c).
  - intros h' self' r''. rewrite lookup_delete. case_decide as E; [discriminate|].
    intros Hs' Hr''. destruct (Hc h' self' r'' Hs' Hr'') as (room'' & Hd & Hin'').
    rewrite lookup_delete. case_decide as E2.
    + subst r''. exfalso. rewrite Hr in Hd. injection Hd as <-.
      assert (Hbad : In h' []) by (apply Hin'; split; [exact Hin'' | congruence]).
      destruct Hbad.
    + exists room''. now split.
  - intros h' self'. rewrite lookup_delete.
    case_decide; [discriminate | apply Ha].
  - intros r' room'. rewrite lookup_insert. case_decide as E.
    + subst r'. intros [= <-]. cbn [set_clients clients]. split; [exact Hnd'|].
      intros c Hcin. apply Hin' in Hcin as [Hcin Hne].
      destruct (Hmem c Hcin) as (self' & Hs' & Hroom').
      exists self'. split; [|exact Hroom'].
      rewrite lookup_delete_ne; [exact Hs'|]. congruence.
    + intros Hr'. split; [apply (Hb r' room' Hr')|].
      intros c Hcin. now apply (Hothers r' room' c).
  - intros h' self' r''. rewrite lookup_delete. case_decide as E; [discriminate|].
    intros Hs' Hr''. destruct (Hc h' self' r'' Hs' Hr'') as (room'' & Hd & Hin'').
    rewrite lookup_insert. case_decide as E2.
    + subst r''. rewrite Hr in Hd. injection Hd as <-.
      eexists. split; [reflexivity|]. cbn [set_clients clients].
      apply Hin'. split; [exact Hin'' | congruence].
    + exists room''. now split.
Qed.

Lemma registered_serve (s : server) (d : delivery) :
  registered s ->
  registered (fst (fst (serve int_str s d)))
  /\ (is_disconnect d = true -> snd (serve int_str s d) = Ok tt).
Proof.
  intros H. destruct d as [h | h time decoded | h].
  - split; [now apply registered_connect | discriminate].
  - split; [now apply registered_message | discriminate].
  - destruct (registered_disconnect s h H) as [H1 H2]. now split.
Qed.

Lemma registered_serve_all (ds : list delivery) :
  forall s : server,
    registered s ->
    registered (snd (serve_all int_str s ds))
    /\ forall (d : delivery) (res : result unit),
         In (d, res) (combine ds (fst (serve_all int_str s ds))) ->
         is_disconnect d = true -> res = Ok tt.
Proof.
  induction ds as [|d ds IH]; intros s H; cbn [serve_all].
  - split; [exact H|]. intros d res [].
  - destruct (registered_serve s d H) as [H1 H2].
    destruct (serve int_str s d) as [[s1 fx] res1]. cbn [fst snd] in H1, H2.
    destruct (IH s1 H1) as [IH1 IH2].
    destruct (serve_all int_str s1 ds) as [rs s2]. cbn [fst snd] in *.
    split; [exact IH1|]. intros d' res [[= <- <-]|Hin]; [exact H2|].
    now apply (IH2 d' res).
Qed.

Lemma registered_server0 (debug : bool) : registered (server0 debug).
Proof.
  split; [|split]; cbn.
  - intros h self. now rewrite lookup_empty.
  - intros r room. now rewrite lookup_empty.
  - intros h self r. now rewrite lookup_empty.
Qed.

Lemma subscribers_invariant (debug : bool) (ds : list delivery) :
  registered (snd (serve_all int_str (server0 debug) ds)).
Proof. apply registered_serve_all, registered_server0. Qed.

(** X15: whatever connections open, send messages and close, and in
    whatever order, the subscribers of every room in the directory are
    distinct open connections whose assigned room is that room, and every
    open connection with an assigned room is among that room's
    subscribers. *)
Theorem subscribers_are_the_joined_connections (debug : bool)
    (ds : list delivery) :
  registered (snd (serve_all int_str (server0 debug) ds)).
Proof. apply registered_serve_all, registered_server0. Qed.

(** X16: on a server driven this way [on_close] never raises: the
    [clients.remove] in [del_client] always finds the closing connection
    in the room it joined. *)
Theorem disconnect_never_raises (debug : bool) (ds : list delivery)
    (d : delivery) (res : result unit) :
  In (d, res) (combine ds (fst (serve_all int_str (server0 debug) ds))) ->
  is_disconnect d = true ->
  res = Ok tt.
Proof.
  apply (proj2 (registered_serve_all ds (server0 debug) (registered_server0 debug))).
Qed.

(** X17: on such a server a broadcast in a room writes exactly once to
    every open connection that joined the room, and not at all to any
    other handle. *)
Theorem broadcast_reaches_each_connection_once (debug : bool)
    (ds : list delivery) (r : Z) (room : Room) (cmd : Command) (data : json) :
  let s := snd (serve_all int_str (server0 debug) ds) in
  directory s !! r = Some room ->
  (forall (h : handle) (self : ChatHandler),
      connections s !! h = Some self ->
      Handler.room_id self = Some r ->
      count (is_write_to h) (send_message room cmd data) = 1%nat)
  /\ (forall h : handle,
        (forall self : ChatHandler,
            connections s !! h = Some self -> Handler.room_id self <> Some r) ->
        count (is_write_to h) (send_message room cmd data) = 0%nat).
Proof.
  cbv zeta. intros Hr.
  destruct (subscribers_invariant debug ds) as (Ha & Hb & Hc).
  destruct (Hb r room Hr) as [Hnd Hmem]. unfold send_message.
  split.
  - intros h self Hh Hroom. rewrite count_write_to.
    destruct (Hc h self r Hh Hroom) as (room' & Hr' & Hin).
    rewrite Hr in Hr'. injection Hr' as <-.
    now apply (proj1 (NoDup_count_occ' Nat.eq_dec (clients room)) Hnd).
  - intros h Hnot. rewrite count_write_to. apply count_occ_not_In.
    intros Hin. destruct (Hmem h Hin) as (self & Hh & Hroom).
    now apply (Hnot self Hh).
Qed.

End Conversion.

Lemma disconnect_never_raises_witness :
  nth 3 (fst (serve_all decimal (server0 false)
                [Connect 1%nat; Message 1%nat (Finite 0 0) (join 12345);
                 Message 1%nat (Finite 0 0) (Raise JSONDecodeError);
                 Disconnect 1%nat])) (Raise ValueError)
  = Ok tt.
Proof.
  apply (disconnect_never_raises decimal false
           [Connect 1%nat; Message 1%nat (Finite 0 0) (join 12345);
            Message 1%nat (Finite 0 0) (Raise JSONDecodeError);
            Disconnect 1%nat] (Disconnect 1%nat)).
  - vm_compute. right. right. right. left. reflexivity.
  - reflexivity.
Defined.

Lemma broadcast_reaches_each_connection_once_witness :
  count (is_write_to 2%nat) (send_message (joined [1; 2]%nat) ADD_GIFT JNull)
  = 1%nat.
Proof.
  refine (proj1 (broadcast_reaches_each_connection_once decimal false
    [Connect 1%nat; Connect 2%nat; Message 1%nat (Finite 0 0) (join 12345);
     Message 2%nat (Finite 0 0) (join 12345)]
    12345 (joined [1; 2]%nat) ADD_GIFT JNull _) 2%nat
    {| self_handle := 2%nat; Handler.room_id := Some 12345; debug := false |} _ _);
    vm_compute; reflexivity.
Defined.

End ServerFacts.
